(** * mal_analytics: the profiler object parser

    A shallow embedding of [mal_profiler/profiler_parser.py]
    ([ProfilerObjectParser]) and of the two methods of
    [mal_analytics/db_manager.py] that read the persisted maxima and hand
    them to the parser class that module imports
    ([DatabaseManager.get_limits], [DatabaseManager.create_parser]).

    Python objects decoded from JSON are the inductive [value]; the parser is
    a record of its four counters; the embedded database, which the parser
    and the manager share, is the ordered list of the rows handed to
    [mdbl.insert]; statements run in a monad that threads the parser, the
    database and the log, and in which a raised exception keeps the state
    reached so far, as in Python. *)

From Stdlib Require Import String Ascii List ZArith Bool Lia.
From Stdlib Require Import Floats.SpecFloat.
Import ListNotations.
Open Scope string_scope.
Open Scope Z_scope.
Open Scope list_scope.

Set Implicit Arguments.
Set Warnings "-register-all".

(** ** Python values *)

(** What [json.loads] builds: [None], [bool], [int], [float], [str], [list]
    and [dict] (its items in insertion order, keys distinct). The same type
    carries the values the parser computes itself (counters, flags). *)
Inductive value : Type :=
| JNull
| JBool (b : bool)
| JInt (n : Z)
| JFloat (f : spec_float)
| JString (s : string)
| JArray (l : list value)
| JObject (kv : list (string * value)).

Definition dict := list (string * value).

Inductive exn : Type := KeyError | TypeError | AttributeError.

Inductive result (A : Type) : Type :=
| Ok (a : A)
| Raise (e : exn).
Arguments Raise {A} e.

Module Py.

Fixpoint lookup (k : string) (d : dict) : option value :=
  match d with
  | [] => None
  | (k', v) :: d' => if String.eqb k k' then Some v else lookup k d'
  end.

(** [d.get(k)] *)
Definition get (d : dict) (k : string) : value :=
  match lookup k d with Some v => v | None => JNull end.

(** [d.get(k, dflt)] *)
Definition get_default (d : dict) (k : string) (dflt : value) : value :=
  match lookup k d with Some v => v | None => dflt end.

(** [d[k]] on a dict *)
Definition item (d : dict) (k : string) : result value :=
  match lookup k d with Some v => Ok v | None => Raise KeyError end.

(** [v[k]] with a [str] key on any object: only a dict can be indexed by a
    string; a list or a string wants integer indices and the other objects
    are not subscriptable, a [TypeError] in both cases. *)
Definition subscript (v : value) (k : string) : result value :=
  match v with
  | JObject d => item d k
  | _ => Raise TypeError
  end.

(** [v.get(k)] on any object: only a dict has the method. *)
Definition attr_get (v : value) (k : string) : result value :=
  match v with
  | JObject d => Ok (get d k)
  | _ => Raise AttributeError
  end.

Definition chars (s : string) : list value :=
  map (fun c => JString (String c EmptyString)) (list_ascii_of_string s).

(** [for x in v]: the elements of a list, the characters of a string, the
    keys of a dict; the other objects are not iterable. *)
Definition iter (v : value) : result (list value) :=
  match v with
  | JArray l => Ok l
  | JString s => Ok (chars s)
  | JObject d => Ok (map (fun kv => JString (fst kv)) d)
  | _ => Raise TypeError
  end.

(** [hash(v)] succeeds on everything [json.loads] builds but lists and
    dicts. *)
Definition hashable (v : value) : bool :=
  match v with
  | JArray _ | JObject _ => false
  | _ => true
  end.

(** [v == s] for a string literal [s] *)
Definition eq_str (v : value) (s : string) : bool :=
  match v with
  | JString s' => String.eqb s' s
  | _ => false
  end.

(** [v == 0]: numbers compare by value, and [False == 0] holds. *)
Definition eq_zero (v : value) : bool :=
  match v with
  | JInt n => Z.eqb n 0
  | JBool b => negb b
  | JFloat (S754_zero _) => true
  | _ => false
  end.

(** truth value of an object, as [or] tests it *)
Definition truthy (v : value) : bool :=
  match v with
  | JNull => false
  | JBool b => b
  | JInt n => negb (Z.eqb n 0)
  | JFloat (S754_zero _) => false
  | JFloat _ => true
  | JString s => negb (String.eqb s EmptyString)
  | JArray l => match l with [] => false | _ => true end
  | JObject d => match d with [] => false | _ => true end
  end.

(** [a or b] *)
Definition or_ (a b : value) : value := if truthy a then a else b.

End Py.

(** Structural equality of values, floats by their IEEE comparison. *)
Fixpoint value_eqb (a b : value) {struct a} : bool :=
  match a, b with
  | JNull, JNull => true
  | JBool x, JBool y => Bool.eqb x y
  | JInt x, JInt y => Z.eqb x y
  | JFloat x, JFloat y => SFeqb x y
  | JString x, JString y => String.eqb x y
  | JArray x, JArray y =>
      (fix go (x y : list value) {struct x} : bool :=
         match x, y with
         | [], [] => true
         | u :: x', v :: y' => value_eqb u v && go x' y'
         | _, _ => false
         end) x y
  | JObject x, JObject y =>
      (fix go (x y : dict) {struct x} : bool :=
         match x, y with
         | [], [] => true
         | (k, u) :: x', (k', v) :: y' =>
             String.eqb k k' && value_eqb u v && go x' y'
         | _, _ => false
         end) x y
  | _, _ => false
  end.

(** ** The embedded database *)

(** What [mdbl.insert] is handed: a dict from column names to values, or, for
    the heartbeat relation, a set of (column, value) tuples. *)
Inductive payload : Type :=
| Dict (row : dict)
| TupleSet (pairs : list (string * value)).

(** The database is the sequence of inserts it has accepted, oldest first,
    each with the name of its table. Rows persisted by earlier sessions and
    the type catalog [mal_type] are rows of the initial database. *)
Definition database := list (string * payload).

(** The named columns a stored row carries. *)
Definition row_of (p : payload) : dict :=
  match p with
  | Dict row => row
  | TupleSet _ => []
  end.

Definition table (tbl : string) (db : database) : list payload :=
  map snd (filter (fun e => String.eqb (fst e) tbl) db).

(** SQL [=]: a NULL on either side matches nothing. *)
Definition sql_eq (a b : value) : bool :=
  match a, b with
  | JNull, _ | _, JNull => false
  | _, _ => value_eqb a b
  end.

(** SQL [MAX] over an integer column: NULLs are skipped, and the maximum of
    nothing is NULL. *)
Definition sql_max (vs : list value) : value :=
  fold_left
    (fun acc v =>
       match v, acc with
       | JInt n, JInt m => JInt (Z.max m n)
       | JInt n, _ => JInt n
       | _, _ => acc
       end) vs JNull.

(** ** The parser and its effects *)

Record parser : Type := mkParser {
  _event_id : Z;
  _heartbeat_id : Z;
  _execution_id : Z;
  _variable_id : Z;
  _db : value
}.

Inductive level : Type := WARNING | ERROR.

(** One call of [LOGGER.warning] or [LOGGER.error]: the format and its
    arguments. *)
Record log_record : Type := mkLog {
  log_level : level;
  log_format : string;
  log_args : list value
}.

Record world : Type := mkWorld {
  self : parser;
  store : database;
  logged : list log_record
}.

(** A statement: from a world to the value returned or the exception raised,
    and the world reached. *)
Definition M (A : Type) : Type := world -> result A * world.

Definition ret {A} (a : A) : M A := fun w => (Ok a, w).

Definition bind {A B} (m : M A) (k : A -> M B) : M B :=
  fun w =>
    match m w with
    | (Ok a, w') => k a w'
    | (Raise e, w') => (Raise e, w')
    end.

Definition lift {A} (r : result A) : M A := fun w => (r, w).

Declare Scope py_scope.
Delimit Scope py_scope with py.
Notation "x <- m ;; k" := (bind m (fun x => k))
  (at level 61, m at next level, right associativity) : py_scope.
Notation "m ;; k" := (bind m (fun _ => k))
  (at level 61, right associativity) : py_scope.
Open Scope py_scope.

(** [for x in l: body] *)
Fixpoint for_each {A} (l : list A) (body : A -> M unit) : M unit :=
  match l with
  | [] => ret tt
  | x :: l' => body x ;; for_each l' body
  end.

(** [try: body / except KeyError: handler] *)
Definition try_except_KeyError (body handler : M unit) : M unit :=
  fun w =>
    match body w with
    | (Raise KeyError, w') => handler w'
    | r => r
    end.

Definition get_self : M parser := fun w => (Ok (self w), w).

Definition update_self (f : parser -> parser) : M unit :=
  fun w => (Ok tt, mkWorld (f (self w)) (store w) (logged w)).

(** [mdbl.insert(tbl, data, client=self._db)]: the store takes the row as it
    is handed over, after the rows it already holds. *)
Definition mdbl_insert (tbl : string) (data : payload) : M unit :=
  fun w => (Ok tt, mkWorld (self w) (store w ++ [(tbl, data)]) (logged w)).

Definition LOGGER (l : level) (fmt : string) (args : list value) : M unit :=
  fun w => (Ok tt, mkWorld (self w) (store w) (logged w ++ [mkLog l fmt args])).

Section Program.

(** A row handed to [mdbl.insert] may leave columns of its table out. What
    the store reads back from such a column (NULL, a default, a generated
    key) is the store's choice: a function of the table, the column, the
    rows stored before and the row itself. *)
Variable absent : string -> string -> database -> dict -> value.

(** [json.loads]: [None] stands for [json.JSONDecodeError]. *)
Variable json_loads : string -> option value.

Definition column (tbl col : string) (before : database) (row : dict)
  : value :=
  match Py.lookup col row with
  | Some v => v
  | None => absent tbl col before row
  end.

(** [SELECT col FROM tbl], with [WHERE name=?] when a parameter is given;
    [before] holds the rows stored earlier than [rest]. *)
Fixpoint scan (tbl col : string) (where_name : option value)
         (before rest : database) : list value :=
  match rest with
  | [] => []
  | (t, p) :: rest' =>
      (if String.eqb t tbl
          && match where_name with
             | None => true
             | Some v => sql_eq (column tbl "name" before (row_of p)) v
             end
       then [column tbl col before (row_of p)]
       else [])
      ++ scan tbl col where_name (before ++ [(t, p)]) rest'
  end.

Definition select (col tbl : string) (where_name : option value)
           (db : database) : list value :=
  scan tbl col where_name [] db.

(** [stmt = mdbl.prepare('SELECT col FROM tbl WHERE name=?')] followed by
    [stmt.execute(param)[col]] *)
Definition stmt_execute (col tbl : string) (param : value)
  : M (list value) :=
  fun w => (Ok (select col tbl (Some param) (store w)), w).

(** *** [DatabaseManager] *)

(** [execute_query('SELECT MAX(col) FROM tbl')] on a table that exists, as
    the eight tables do once [_initialize_tables] has returned: one row of
    one cell. *)
Definition execute_query_max (col tbl : string) (db : database)
  : list (list value) :=
  [[sql_max (select col tbl None db)]].

(** [x[0][0]] *)
Definition first_cell (x : list (list value)) : value :=
  match x with
  | (v :: _) :: _ => v
  | _ => JNull
  end.

Definition get_limits (db : database) : list value :=
  let limit_queries :=
    [ ("execution_id", "mal_execution");
      ("event_id", "profiler_event");
      ("variable_id", "mal_variable");
      ("heartbeat_id", "heartbeat") ] in
  let results :=
    map (fun q => execute_query_max (fst q) (snd q) db) limit_queries in
  map (fun x => Py.or_ (first_cell x) (JInt 0)) results.

(** The constructor called on the positional arguments [args]:
    [__init__(self, db)] takes one, and a call with any other number of
    them is a [TypeError]. *)
Definition ProfilerObjectParser (args : list value) : result parser :=
  match args with
  | [db] => Ok (mkParser 0 0 0 0 db)
  | _ => Raise TypeError
  end.


(** *** [ProfilerObjectParser] *)

Definition incr_execution_id : M unit :=
  update_self (fun p => mkParser (_event_id p) (_heartbeat_id p)
                          (_execution_id p + 1) (_variable_id p) (_db p)).

Definition incr_event_id : M unit :=
  update_self (fun p => mkParser (_event_id p + 1) (_heartbeat_id p)
                          (_execution_id p) (_variable_id p) (_db p)).

Definition incr_variable_id : M unit :=
  update_self (fun p => mkParser (_event_id p) (_heartbeat_id p)
                          (_execution_id p) (_variable_id p + 1) (_db p)).

Definition incr_heartbeat_id : M unit :=
  update_self (fun p => mkParser (_event_id p) (_heartbeat_id p + 1)
                          (_execution_id p) (_variable_id p) (_db p)).

(** [self._states.get(token)]: the key is hashed first. *)
Definition _states : list (string * Z) :=
  [("start", 0); ("done", 1); ("pause", 2)].

Fixpoint states_lookup (s : string) (l : list (string * Z)) : value :=
  match l with
  | [] => JNull
  | (k, n) :: l' => if String.eqb s k then JInt n else states_lookup s l'
  end.

Definition states_get (token : value) : result value :=
  match token with
  | JString s => Ok (states_lookup s _states)
  | _ => if Py.hashable token then Ok JNull else Raise TypeError
  end.

Definition execution_data (p : parser) (json_object : dict) : dict :=
  [ ("execution_id", JInt (_execution_id p));
    ("server_session", Py.get json_object "session");
    ("tag", Py.get json_object "tag") ].

Definition event_data (p : parser) (exec_state : value)
           (json_object : dict) : dict :=
  [ ("mal_execution_id", JInt (_execution_id p));
    ("pc", Py.get json_object "pc");
    ("execution_state", exec_state);
    ("clk", Py.get json_object "clk");
    ("ctime", Py.get json_object "ctime");
    ("thread", Py.get json_object "thread");
    ("mal_function", Py.get json_object "function");
    ("usec", Py.get json_object "usec");
    ("rss", Py.get json_object "rss");
    ("type_size", Py.get json_object "size");
    ("long_statement", Py.get json_object "stmt");
    ("short_statement", Py.get json_object "short") ].

Definition prerequisite_data (p : parser) (prereq : value) : dict :=
  [ ("prerequisite_event", prereq);
    ("consequent_event", JInt (_event_id p)) ].

(** [var.get(k)], reached only after [var['name']] has succeeded *)
Definition var_get (var : value) (k : string) : value :=
  match var with
  | JObject d => Py.get d k
  | _ => JNull
  end.

Definition variable_data (p : parser) (type_id var : value) : dict :=
  [ ("name", var_get var "name");
    ("mal_execution_id", JInt (_execution_id p));
    ("alias", var_get var "alias");
    ("type_id", type_id);
    ("is_persistent", JBool (Py.eq_str (var_get var "kind") "persistent"));
    ("bid", var_get var "bid");
    ("var_count", var_get var "count");
    ("var_size", var_get var "size");
    ("seqbase", var_get var "seqbase");
    ("hghbase", var_get var "hghbase");
    ("eol", JBool (Py.eq_zero (var_get var "eol"))) ].

Definition var_list_data (p : parser) (var current_var_id : value) : dict :=
  [ ("variable_list_index", var_get var "index");
    ("event_id", JInt (_event_id p));
    ("variable_id", current_var_id) ].

(** [var_list_tables[var_list_field]] *)
Definition var_list_tables (var_list_field : string) : result string :=
  if String.eqb var_list_field "ret" then Ok "return_variable_list"
  else if String.eqb var_list_field "arg" then Ok "argument_variable_list"
  else Raise KeyError.

(** lines 115-121: the list entry of one variable *)
Definition insert_var_list_entry (var_list_field : string)
           (var current_var_id : value) : M unit :=
  p <- get_self ;;
  tbl <- lift (var_list_tables var_list_field) ;;
  mdbl_insert tbl (Dict (var_list_data p var current_var_id)).

(** lines 75-121: the body of [for var in var_list] *)
Definition process_var (var_list_field : string) (var : value) : M unit :=
  name <- lift (Py.subscript var "name") ;;
  r <- stmt_execute "variable_id" "mal_variable" name ;;
  match r with
  | [] =>
      incr_variable_id ;;
      ty <- lift (Py.subscript var "type") ;;
      r <- stmt_execute "type_id" "mal_type" ty ;;
      match r with
      | [] =>
          LOGGER WARNING "Unkown type: {}" [ty] ;;
          LOGGER WARNING "Ignoring variable: {}" [name] ;;
          ret tt
      | type_id :: _ =>
          p <- get_self ;;
          mdbl_insert "mal_variable" (Dict (variable_data p type_id var)) ;;
          p <- get_self ;;
          insert_var_list_entry var_list_field var (JInt (_variable_id p))
      end
  | current_var_id :: _ =>
      insert_var_list_entry var_list_field var current_var_id
  end.

(** lines 71-121: the body of [for var_list_field in ('ret', 'arg')] *)
Definition process_var_list (json_object : dict) (var_list_field : string)
  : M unit :=
  var_list <-
    lift (Py.iter (Py.get_default json_object var_list_field (JArray []))) ;;
  for_each var_list (process_var var_list_field).

Definition _parse_trace (json_object : dict) : M unit :=
  incr_execution_id ;;
  incr_event_id ;;
  p <- get_self ;;
  mdbl_insert "mal_execution" (Dict (execution_data p json_object)) ;;
  exec_state <- lift (states_get (Py.get json_object "state")) ;;
  p <- get_self ;;
  mdbl_insert "profiler_event" (Dict (event_data p exec_state json_object)) ;;
  prereqs <- lift (Py.iter (Py.get json_object "prereq")) ;;
  for_each prereqs
    (fun prereq =>
       p <- get_self ;;
       mdbl_insert "prerequisite_events"
         (Dict (prerequisite_data p prereq))) ;;
  for_each ["ret"; "arg"] (process_var_list json_object).

Definition data_keys : list string :=
  ["server_session"; "clk"; "ctime"; "rss"; "nvcsw"].

(** [{(k, json_object.get(k)) for k in data_keys}]: a set of tuples, each
    hashed as it is added. The keys differ, so the set keeps one tuple per
    key; the order of the list stands for no order of the set. *)
Definition heartbeat_data (json_object : dict) : result payload :=
  let pairs := map (fun k => (k, Py.get json_object k)) data_keys in
  if forallb (fun kv => Py.hashable (snd kv)) pairs
  then Ok (TupleSet pairs)
  else Raise TypeError.

Definition cpuload_data (p : parser) (c : value) : dict :=
  [ ("heartbeat_id", JInt (_heartbeat_id p)); ("val", c) ].

Definition _parse_heartbeat (json_object : dict) : M unit :=
  incr_heartbeat_id ;;
  data <- lift (heartbeat_data json_object) ;;
  mdbl_insert "heartbeat" data ;;
  cpuload <- lift (Py.item json_object "cpuload") ;;
  samples <- lift (Py.iter cpuload) ;;
  for_each samples
    (fun c =>
       p <- get_self ;;
       mdbl_insert "cpuload" (Dict (cpuload_data p c))).

(** [dispatcher[source](json_object)]: the key is hashed, then looked up. *)
Definition dispatcher (source : value) (json_object : dict) : M unit :=
  match source with
  | JString s =>
      if String.eqb s "trace" then _parse_trace json_object
      else if String.eqb s "heartbeat" then _parse_heartbeat json_object
      else lift (Raise KeyError)
  | _ =>
      if Py.hashable source then lift (Raise KeyError)
      else lift (Raise TypeError)
  end.

(** [json_object] once [json_object.get] has succeeded on it *)
Definition dict_of (json_object : value) : dict :=
  match json_object with
  | JObject d => d
  | _ => []
  end.

Definition parse_object (json_string : string) : M unit :=
  match json_loads json_string with
  | None =>
      LOGGER WARNING "W001: Cannot parse object" [] ;;
      LOGGER WARNING json_string [] ;;
      LOGGER WARNING "Decoder reports %s" [JString json_string] ;;
      ret tt
  | Some json_object =>
      source <- lift (Py.attr_get json_object "source") ;;
      match source with
      | JNull =>
          LOGGER ERROR "Unkown JSON object" [] ;;
          v <- lift (Py.subscript json_object "source") ;;
          LOGGER ERROR "%s" [v] ;;
          ret tt
      | _ =>
          try_except_KeyError
            (dispatcher source (dict_of json_object))
            (v <- lift (Py.subscript json_object "source") ;;
             LOGGER ERROR "Unkown JSON object kind: %s" [v] ;;
             ret tt)
      end
  end.

End Program.

(** ** Stores, decoders and records of the examples *)

(** A store that reads NULL from every column a row did not carry. *)
Definition null_columns : string -> string -> database -> dict -> value :=
  fun _ _ _ _ => JNull.

(** A store that numbers the rows of a table itself: a column a row did not
    carry reads as the position of the row in its table, from 1. *)
Definition serial_columns : string -> string -> database -> dict -> value :=
  fun tbl _ before _ => JInt (Z.of_nat (length (table tbl before)) + 1).

Definition dq : string := String "034"%char EmptyString.

Definition quoted (s : string) : string := (dq ++ s ++ dq)%string.

(** The text [{"source": "trace"}] *)
Definition bare_trace_text : string :=
  ("{" ++ quoted "source" ++ ": " ++ quoted "trace" ++ "}")%string.

(** The text [{"source": "trace", "prereq": [], "arg": [{}]}] *)
Definition nameless_var_text : string :=
  ("{" ++ quoted "source" ++ ": " ++ quoted "trace" ++ ", "
       ++ quoted "prereq" ++ ": [], "
       ++ quoted "arg" ++ ": [{}]}")%string.

(** A fragment of [json.loads]: the texts of the examples with the objects
    they decode to. Any other text is outside the fragment and is never
    handed to it, except [{] for a text that does not decode. *)
Definition sample_loads (json_string : string) : option value :=
  if String.eqb json_string "{}" then Some (JObject [])
  else if String.eqb json_string "[]" then Some (JArray [])
  else if String.eqb json_string bare_trace_text
  then Some (JObject [("source", JString "trace")])
  else if String.eqb json_string nameless_var_text
  then Some (JObject [("source", JString "trace");
                      ("prereq", JArray []);
                      ("arg", JArray [JObject []])])
  else None.

(** The type catalog: two rows of [mal_type]. *)
Definition catalog : database :=
  [ ("mal_type", Dict [("type_id", JInt 1); ("name", JString "int")]);
    ("mal_type", Dict [("type_id", JInt 2); ("name", JString "str")]) ].

(** A database that an earlier session left three executions in. *)
Definition resumed_db : database :=
  catalog ++
  map (fun n => ("mal_execution",
                 Dict [("execution_id", JInt n);
                       ("server_session", JString "s0");
                       ("tag", JInt n)]))
      [1; 2; 3].

Definition fresh_parser : parser := mkParser 0 0 0 0 JNull.

Definition fresh_world : world := mkWorld fresh_parser catalog [].

Definition var_entry (name type : string) (index : Z) : value :=
  JObject [("name", JString name); ("type", JString type);
           ("index", JInt index)].

Definition trace_record (args : list value) : dict :=
  [ ("source", JString "trace"); ("session", JString "s1"); ("tag", JInt 1);
    ("state", JString "start"); ("pc", JInt 1);
    ("prereq", JArray []); ("ret", JArray []); ("arg", JArray args) ].

Definition heartbeat_record (cpuload : list value) : dict :=
  [ ("source", JString "heartbeat"); ("session", JString "s1");
    ("clk", JInt 10); ("ctime", JInt 20); ("rss", JInt 30);
    ("nvcsw", JInt 40); ("cpuload", JArray cpuload) ].

(** ** Vocabulary of the statements *)

(** The closed enumeration of the state tokens. *)
Definition state_enumeration (token : value) : value :=
  if Py.eq_str token "start" then JInt 0
  else if Py.eq_str token "done" then JInt 1
  else if Py.eq_str token "pause" then JInt 2
  else JNull.

(** The rows of a table, as dicts. *)
Definition rows (tbl : string) (db : database) : list dict :=
  map row_of (table tbl db).

Definition variable_rows (db : database) : nat :=
  length (table "mal_variable" db).

Definition list_entry_rows (db : database) : nat :=
  length (table "return_variable_list" db)
  + length (table "argument_variable_list" db).

(** The parser after [self._variable_id += 1]. *)
Definition variable_id_consumed (p : parser) : parser :=
  mkParser (_event_id p) (_heartbeat_id p) (_execution_id p)
           (_variable_id p + 1) (_db p).

(** [w'] is [w] after statements that only append rows satisfying [P] and
    only touch the variable counter, never lowering it. *)
Definition grows (P : string * payload -> Prop) (w w' : world) : Prop :=
  (exists rest, store w' = store w ++ rest /\ Forall P rest)
  /\ _event_id (self w') = _event_id (self w)
  /\ _execution_id (self w') = _execution_id (self w)
  /\ _heartbeat_id (self w') = _heartbeat_id (self w)
  /\ _variable_id (self w) <= _variable_id (self w').

Definition growing (P : string * payload -> Prop) {A} (m : M A) : Prop :=
  forall w, grows P w (snd (m w)).

(** The tables the variable lists are written to. *)
Definition variable_table (e : string * payload) : Prop :=
  fst e = "mal_variable" \/ fst e = "return_variable_list"
  \/ fst e = "argument_variable_list".

(** The world after lines 26-51: both counters advanced, the Execution and
    the Event row stored. *)
Definition after_event (json_object : dict) (exec_state : value)
           (w : world) : world :=
  let p := mkParser (_event_id (self w) + 1) (_heartbeat_id (self w))
                    (_execution_id (self w) + 1) (_variable_id (self w))
                    (_db (self w)) in
  mkWorld p
    (store w ++
     [ ("mal_execution", Dict (execution_data p json_object));
       ("profiler_event", Dict (event_data p exec_state json_object)) ])
    (logged w).

(** lines 53-61 *)
Definition prerequisite_loop (prereqs : list value) : M unit :=
  for_each prereqs
    (fun prereq =>
       p <- get_self ;;
       mdbl_insert "prerequisite_events"
         (Dict (prerequisite_data p prereq))).

(** Whether the registry holds a variable of that name: the test of line 81,
    negated. *)
Definition known (absent : string -> string -> database -> dict -> value)
           (db : database) (name : value) : bool :=
  match select absent "variable_id" "mal_variable" (Some name) db with
  | [] => false
  | _ :: _ => true
  end.

(** Whether the catalog holds a type of that name: the test of line 91,
    negated. *)
Definition in_catalog (absent : string -> string -> database -> dict -> value)
           (db : database) (type_name : value) : bool :=
  match select absent "type_id" "mal_type" (Some type_name) db with
  | [] => false
  | _ :: _ => true
  end.

(** The name of a variable-list entry, when the entry is a dict whose
    [name] is a string. *)
Definition entry_name (var : value) : option string :=
  match var with
  | JObject d =>
      match Py.lookup "name" d with
      | Some (JString n) => Some n
      | _ => None
      end
  | _ => None
  end.

Definition entry_type (var : value) : option value :=
  match var with
  | JObject d => Py.lookup "type" d
  | _ => None
  end.

(** A named entry whose type the catalog holds. *)
Definition recognized (absent : string -> string -> database -> dict -> value)
           (db : database) (var : value) : bool :=
  match entry_name var, entry_type var with
  | Some _, Some ty => in_catalog absent db ty
  | _, _ => false
  end.

(** A named entry whose type the catalog does not hold. *)
Definition unrecognized
           (absent : string -> string -> database -> dict -> value)
           (db : database) (var : value) : bool :=
  match entry_name var, entry_type var with
  | Some _, Some ty => negb (in_catalog absent db ty)
  | _, _ => false
  end.

(** The entries of the two variable lists with the field they come from, in
    the order [_parse_trace] visits them. *)
Definition variable_list_entries (rets args : list value)
  : list (string * value) :=
  map (pair "ret") rets ++ map (pair "arg") args.

(** The variable ids the argument list entries refer to. *)
Definition referenced_ids (db : database) : list value :=
  map (fun row => Py.get row "variable_id") (rows "argument_variable_list" db).

(** The parser after [self._heartbeat_id += 1]. *)
Definition heartbeat_id_allocated (p : parser) : parser :=
  mkParser (_event_id p) (_heartbeat_id p + 1) (_execution_id p)
           (_variable_id p) (_db p).

(** The same name twice in one argument list. *)
Definition twice_record : dict :=
  trace_record [var_entry "y" "int" 0; var_entry "y" "int" 1].

(** The same, after a variable whose type the catalog does not hold. *)
Definition twice_after_failure_record : dict :=
  trace_record [ var_entry "x" "frobnicator" 0;
                 var_entry "y" "int" 1; var_entry "y" "int" 2 ].

(** What the store reads back as the [variable_id] of the row of [y]: the
    row is stored right after the Execution and the Event row of the record,
    in both records above. *)
Definition stored_variable_id
           (absent : string -> string -> database -> dict -> value) : value :=
  let w1 := after_event twice_record (JInt 0) fresh_world in
  absent "mal_variable" "variable_id" (store w1)
         (variable_data (self w1) (JInt 1) (var_entry "y" "int" 0)).

(** An argument list with a name seen twice and a type the catalog does not
    hold. *)
Definition known_and_unknown_record : dict :=
  trace_record [ var_entry "x" "int" 0; var_entry "x" "int" 1;
                 var_entry "y" "frobnicator" 2 ].

Definition resumed_world : world := mkWorld fresh_parser resumed_db [].

(** What processing a recognized entry named [n] does to the store: one
    list entry more, at most one Variable row more, the catalog as it was,
    and no name registered but [n]. *)
Definition registers (absent : string -> string -> database -> dict -> value)
           (n : string) (w w' : world) : Prop :=
  list_entry_rows (store w') = (list_entry_rows (store w) + 1)%nat
  /\ (variable_rows (store w') <= variable_rows (store w) + 1)%nat
  /\ (forall ty,
         in_catalog absent (store w') ty = in_catalog absent (store w) ty)
  /\ (forall m,
         known absent (store w') (JString m) = true ->
         known absent (store w) (JString m) = true \/ m = n)
  /\ grows variable_table w w'.

(** The body of the two loops of lines 70-121, on an entry with its field. *)
Definition process_entry
           (absent : string -> string -> database -> dict -> value)
           (e : string * value) : M unit :=
  process_var absent (fst e) (snd e).

Definition entry_names (es : list (string * value)) : list (option string) :=
  map (fun e => entry_name (snd e)) es.

(** The world after lines 26-61: the Execution row, the Event row and the
    prerequisite edges stored. *)
Definition after_prerequisites (json_object : dict) (exec_state : value)
           (prereqs : list value) (w : world) : world :=
  let w1 := after_event json_object exec_state w in
  mkWorld (self w1)
    (store w1 ++
     map (fun prereq =>
            ("prerequisite_events",
             Dict (prerequisite_data (self w1) prereq))) prereqs)
    (logged w1).



(** The tables the parser hands rows to. *)
Definition parser_tables : list string :=
  [ "mal_execution"; "profiler_event"; "prerequisite_events"; "mal_variable";
    "return_variable_list"; "argument_variable_list"; "heartbeat"; "cpuload" ].

Definition parser_table (e : string * payload) : Prop :=
  In (fst e) parser_tables.

(** The store of [w'] is the store of [w] followed by rows satisfying [P]. *)
Definition extends (P : string * payload -> Prop) (w w' : world) : Prop :=
  exists rest, store w' = store w ++ rest /\ Forall P rest.

Definition extending (P : string * payload -> Prop) {A} (m : M A) : Prop :=
  forall w, extends P w (snd (m w)).

(** The parser after lines 26-27. *)
Definition trace_ids_allocated (p : parser) : parser :=
  mkParser (_event_id p + 1) (_heartbeat_id p) (_execution_id p + 1)
           (_variable_id p) (_db p).

(** The first of the four limits. *)
Definition execution_limit
           (absent : string -> string -> database -> dict -> value)
           (db : database) : value :=
  hd JNull (get_limits absent db).

(** ** The connection manager *)

(** [DatabaseManager] of [mal_analytics/db_manager.py]: the methods that
    open, initialize, query and fill the database, over a connection of the
    database library whose operations are the variables of the section. *)
Module Manager.

(** *** Strings *)

(** [c.isspace()] for a character below 256. *)
Definition isspace (c : ascii) : bool :=
  let n := nat_of_ascii c in
  ((9 <=? n) && (n <=? 13) || (28 <=? n) && (n <=? 32)
   || (n =? 133) || (n =? 160))%nat.

(** [s.lstrip()] *)
Fixpoint lstrip (s : string) : string :=
  match s with
  | EmptyString => EmptyString
  | String c s' => if isspace c then lstrip s' else s
  end.

(** [s.rstrip()] *)
Fixpoint rstrip (s : string) : string :=
  match s with
  | EmptyString => EmptyString
  | String c s' =>
      match rstrip s' with
      | EmptyString => if isspace c then EmptyString else String c EmptyString
      | r => String c r
      end
  end.

(** [s.strip()] *)
Definition strip (s : string) : string := lstrip (rstrip s).

(** [s.endswith(c)] for a one-character suffix *)
Fixpoint endswith (s : string) (c : ascii) : bool :=
  match s with
  | EmptyString => false
  | String a EmptyString => Ascii.eqb a c
  | String _ s' => endswith s' c
  end.

Definition newline : string := String "010"%char EmptyString.

(** [sep.join(l)] *)
Definition join (sep : string) (l : list string) : string :=
  String.concat sep l.

(** The test of line 128: a line that starts with [--], or is blank once
    stripped, is passed over. *)
Definition skipped (ln : string) : bool :=
  String.prefix "--" ln || String.eqb (strip ln) EmptyString.

(** The statements [execute_sql_script] hands to the connection when none
    fails, from the lines [sql_in] with [stmt] collected so far. *)
Fixpoint statements (sql_in stmt : list string) : list string :=
  match sql_in with
  | [] => []
  | ln :: rest =>
      if skipped ln then statements rest stmt
      else if endswith (strip ln) ";"
           then join " " (stmt ++ [strip ln]) :: statements rest []
           else statements rest (stmt ++ [strip ln])
  end.

(** The lines collected and not yet executed at the end of [sql_in]. *)
Fixpoint pending (sql_in stmt : list string) : list string :=
  match sql_in with
  | [] => stmt
  | ln :: rest =>
      if skipped ln then pending rest stmt
      else if endswith (strip ln) ";"
           then pending rest []
           else pending rest (stmt ++ [strip ln])
  end.

(** How often [c] occurs in [s]. *)
Fixpoint occurrences (c : ascii) (s : string) : nat :=
  match s with
  | EmptyString => O
  | String a s' => ((if Ascii.eqb a c then 1 else 0) + occurrences c s')%nat
  end.

(** *** Outcomes *)

Inductive failure : Type :=
| MonetDBLiteError
| DatabaseManagerError
| InitializationError
| IndexError
| Builtin (e : exn).

Inductive answer (A : Type) : Type :=
| Returned (a : A)
| Raised (f : failure).
Arguments Raised {A} f.

(** [[f(x) for x in l]], left at the first exception. *)
Fixpoint map_answer {A B} (f : A -> answer B) (l : list A)
  : answer (list B) :=
  match l with
  | [] => Returned []
  | x :: l' =>
      match f x with
      | Raised e => Raised e
      | Returned y =>
          match map_answer f l' with
          | Raised e => Raised e
          | Returned ys => Returned (y :: ys)
          end
      end
  end.

(** [(x[0][0] or 0)] on the result of [execute_query]: [None] cannot be
    subscripted, a result without a row or a row without a cell has no
    first element. *)
Definition limit_of (x : option (list (list value))) : answer value :=
  match x with
  | None => Raised (Builtin TypeError)
  | Some [] => Raised IndexError
  | Some ([] :: _) => Raised IndexError
  | Some ((v :: _) :: _) => Returned (Py.or_ v (JInt 0))
  end.

(** A query result with a first cell. *)
Definition has_cell (x : option (list (list value))) : bool :=
  match x with
  | Some ((_ :: _) :: _) => true
  | _ => false
  end.

Definition limit_queries : list string :=
  [ "SELECT MAX(execution_id) FROM mal_execution";
    "SELECT MAX(event_id) FROM profiler_event";
    "SELECT MAX(variable_id) FROM mal_variable";
    "SELECT MAX(heartbeat_id) FROM heartbeat" ].

(** The tables [_initialize_tables] looks for. *)
Definition tables : list string :=
  [ "mal_execution"; "profiler_event"; "prerequisite_events"; "mal_type";
    "mal_variable"; "event_variable_list"; "heartbeat"; "cpuload" ].

Section Connection.

(** A connection of the database library. *)
Variable conn : Type.

(** [monetdblite.make_connection(dbpath, True)] *)
Variable make_connection : string -> conn.

(** [connection.execute(statement)]: [false] when it raises
    [monetdblite.Error]. *)
Variable conn_execute : string -> conn -> bool * conn.

(** [connection.rollback()] *)
Variable conn_rollback : conn -> conn.

(** [cursor.execute("SELECT id FROM _tables WHERE name =%s", tbl)]: the
    number of rows found. *)
Variable tables_named : string -> conn -> Z.

(** [cursor.execute(query)] followed by [cursor.fetchall()]: [None] when
    one of them raises [monetdblite.Error]. *)
Variable cursor_query : string -> conn -> option (list (list value)) * conn.

(** What [insert_data] is given to store. *)
Variable data : Type.

(** [cursor.insert(table, data)]: [false] when it raises
    [monetdblite.Error]. *)
Variable cursor_insert : string -> data -> conn -> bool * conn.

(** The lines of [data/tables.sql], as [readlines] returns them. *)
Variable tables_sql : list string.

(** [str(c)] *)
Variable str : value -> string.

(** [tempfile.mktemp()] *)
Variable mktemp : string.

Record manager : Type := mkManager {
  _dbpath : string;
  _connection : option conn
}.

(** The calls of [LOGGER], by the line that makes them. *)
Inductive event : Type :=
| ScriptFailed
| TableNotFound (tbl : string)
| QueryFailed (query : string)
| InsertFailed (table : string)
| RejectedData (d : data).

(** The manager and what has been logged. *)
Record mstate : Type := mkState {
  this : manager;
  journal : list event
}.

Definition with_connection (s : mstate) (c : option conn) : mstate :=
  mkState (mkManager (_dbpath (this s)) c) (journal s).

Definition log (e : event) (s : mstate) : mstate :=
  mkState (this s) (journal s ++ [e]).

Definition _connect (m : manager) : manager :=
  mkManager (_dbpath m) (Some (make_connection (_dbpath m))).

Definition is_connected (m : manager) : bool :=
  match _connection m with
  | Some _ => true
  | None => false
  end.

Definition get_dbpath (m : manager) : string := _dbpath m.

(** [self._connection.close()] then [self._connection = None] *)
Definition close_connection (m : manager) : answer manager :=
  match _connection m with
  | Some _ => Returned (mkManager (_dbpath m) None)
  | None => Raised (Builtin AttributeError)
  end.

(** lines 125-136, on the lines read from the script *)
Fixpoint script_loop (sql_in stmt : list string) (s : mstate)
  : answer unit * mstate :=
  match sql_in with
  | [] => (Returned tt, s)
  | ln :: rest =>
      let cline := strip ln in
      if String.prefix "--" ln || String.eqb cline EmptyString
      then script_loop rest stmt s
      else
        let stmt := stmt ++ [cline] in
        if endswith cline ";"
        then
          let statement := join " " stmt in
          match _connection (this s) with
          | None => (Raised (Builtin AttributeError), s)
          | Some c =>
              match conn_execute statement c with
              | (true, c') => script_loop rest [] (with_connection s (Some c'))
              | (false, c') =>
                  (Raised MonetDBLiteError, with_connection s (Some c'))
              end
          end
        else script_loop rest stmt s
  end.

(** The statements [sts] handed to the connection one after the other, up
    to the first that raises. *)
Fixpoint run_statements (sts : list string) (s : mstate)
  : answer unit * mstate :=
  match sts with
  | [] => (Returned tt, s)
  | statement :: rest =>
      match _connection (this s) with
      | None => (Raised (Builtin AttributeError), s)
      | Some c =>
          match conn_execute statement c with
          | (true, c') => run_statements rest (with_connection s (Some c'))
          | (false, c') =>
              (Raised MonetDBLiteError, with_connection s (Some c'))
          end
      end
  end.

Definition execute_sql_script (sql_in : list string) (s : mstate)
  : answer unit * mstate :=
  script_loop sql_in [] s.

(** lines 83-88 *)
Fixpoint check_tables (tbls : list string) (c : conn) (s : mstate)
  : answer unit * mstate :=
  match tbls with
  | [] => (Returned tt, s)
  | tbl :: rest =>
      if Z.eqb (tables_named tbl c) 1
      then check_tables rest c s
      else (Raised InitializationError, log (TableNotFound tbl) s)
  end.

Definition _initialize_tables (s : mstate) : answer unit * mstate :=
  let after_script :=
    match execute_sql_script tables_sql s with
    | (Raised MonetDBLiteError, s1) =>
        match _connection (this s1) with
        | Some c =>
            (Returned tt,
             with_connection (log ScriptFailed s1) (Some (conn_rollback c)))
        | None => (Raised (Builtin AttributeError), log ScriptFailed s1)
        end
    | r => r
    end in
  match after_script with
  | (Returned _, s2) =>
      match _connection (this s2) with
      | None => (Raised (Builtin AttributeError), s2)
      | Some c => check_tables tables c s2
      end
  | r => r
  end.

(** [__init__(self, dbpath)] *)
Definition __init__ (dbpath : string) (logged : list event)
  : answer unit * mstate :=
  let self := mkManager dbpath None in
  _initialize_tables (mkState (_connect self) logged).

(** [Singleton.__call__] for the class [DatabaseManager]: [_instances] holds
    the instance of the class, if any; the object returned is the one
    [_instances] holds afterwards. *)
Definition Singleton_call (dbpath : string) (_instances : option manager)
           (logged : list event)
  : answer unit * option manager * list event :=
  match _instances with
  | None =>
      match __init__ dbpath logged with
      | (Returned _, s) =>
          let obj := this s in
          (Returned tt,
           Some (if is_connected obj then obj else _connect obj),
           journal s)
      | (Raised f, s) => (Raised f, None, journal s)
      end
  | Some obj =>
      (Returned tt,
       Some (if is_connected obj then obj else _connect obj),
       logged)
  end.

Definition execute_query (query : string) (s : mstate)
  : answer (option (list (list value))) * mstate :=
  match _connection (this s) with
  | None => (Raised (Builtin AttributeError), s)
  | Some c =>
      match cursor_query query c with
      | (Some results, c') =>
          (Returned (Some results), with_connection s (Some c'))
      | (None, c') =>
          (Returned None, log (QueryFailed query) (with_connection s (Some c')))
      end
  end.

(** [[self.execute_query(q) for q in limit_queries]] *)
Fixpoint run_queries (queries : list string) (s : mstate)
  : answer (list (option (list (list value)))) * mstate :=
  match queries with
  | [] => (Returned [], s)
  | q :: rest =>
      match execute_query q s with
      | (Raised f, s1) => (Raised f, s1)
      | (Returned x, s1) =>
          match run_queries rest s1 with
          | (Raised f, s2) => (Raised f, s2)
          | (Returned xs, s2) => (Returned (x :: xs), s2)
          end
      end
  end.

Definition get_limits (s : mstate) : answer (list value) * mstate :=
  match run_queries limit_queries s with
  | (Raised f, s1) => (Raised f, s1)
  | (Returned results, s1) => (map_answer limit_of results, s1)
  end.

(** One line of [_prepare_csv]: the values of the row, in the order of the
    row, joined by a bar. *)
Definition csv_line (element : dict) : string :=
  (join "|" (map (fun kv => str (snd kv)) element) ++ newline)%string.

(** The text of the rows [rows], one line after the other. *)
Definition csv_text (rows : list dict) : string :=
  fold_left (fun csv_lines element =>
               (csv_lines ++ csv_line element)%string)
            rows EmptyString.

(** [_prepare_csv(data)]: the name of the file and what is written to it;
    [data[0]] raises when there is no row. *)
Definition _prepare_csv (rows : list dict) : answer (string * string) :=
  match rows with
  | [] => Raised IndexError
  | _ :: _ =>
      Returned
        (mktemp,
         fold_left (fun csv_lines element =>
                      (csv_lines ++ csv_line element)%string)
                   rows EmptyString)
  end.

Definition insert_data (table : string) (d : data) (s : mstate)
  : answer unit * mstate :=
  match _connection (this s) with
  | None => (Raised DatabaseManagerError, s)
  | Some c =>
      match cursor_insert table d c with
      | (true, c') => (Returned tt, with_connection s (Some c'))
      | (false, c') =>
          (Returned tt,
           log (RejectedData d)
             (log (InsertFailed table) (with_connection s (Some c'))))
      end
  end.

End Connection.

End Manager.

(** A connection for the examples: it records the statements it is given,
    rejects those that start with [DROP], holds the eight tables of
    [Manager.tables] and answers every query that starts with [SELECT] with
    the single cell 5. *)
Module Toy.

Definition conn : Type := list string.

Definition make_connection (dbpath : string) : conn := [].

Definition conn_execute (statement : string) (c : conn) : bool * conn :=
  (negb (String.prefix "DROP" statement), c ++ [statement]).

Definition conn_rollback (c : conn) : conn := c.

Definition tables_named (tbl : string) (c : conn) : Z :=
  if existsb (String.eqb tbl) Manager.tables then 1 else 0.

Definition cursor_query (query : string) (c : conn)
  : option (list (list value)) * conn :=
  (if String.prefix "SELECT" query then Some [[JInt 5]] else None, c).

Definition cursor_insert (table : string) (d : dict) (c : conn)
  : bool * conn :=
  (negb (String.eqb table "nowhere"), c).

Definition str (v : value) : string :=
  match v with
  | JString s => s
  | JNull => "None"
  | _ => "0"
  end.

(** The same, but the heartbeat table cannot be queried. *)
Definition cursor_query_without_heartbeat (query : string) (c : conn)
  : option (list (list value)) * conn :=
  (if String.eqb query "SELECT MAX(heartbeat_id) FROM heartbeat" then None
   else Some [[JInt 5]], c).

(** A connection that is a store of the parser: the four limit queries are
    answered from its rows. *)
Definition store_query
           (absent : string -> string -> database -> dict -> value)
           (query : string) (db : database)
  : option (list (list value)) * database :=
  (if String.eqb query "SELECT MAX(execution_id) FROM mal_execution"
   then Some (execute_query_max absent "execution_id" "mal_execution" db)
   else if String.eqb query "SELECT MAX(event_id) FROM profiler_event"
   then Some (execute_query_max absent "event_id" "profiler_event" db)
   else if String.eqb query "SELECT MAX(variable_id) FROM mal_variable"
   then Some (execute_query_max absent "variable_id" "mal_variable" db)
   else if String.eqb query "SELECT MAX(heartbeat_id) FROM heartbeat"
   then Some (execute_query_max absent "heartbeat_id" "heartbeat" db)
   else None,
   db).

Definition state (m : Manager.manager conn) : Manager.mstate conn dict :=
  Manager.mkState m [].

Definition opened : Manager.manager conn := Manager.mkManager "db" (Some []).

Definition closed : Manager.manager conn := Manager.mkManager "db" None.

Definition script : list string :=
  [ ("-- tables" ++ Manager.newline)%string;
    ("CREATE TABLE t (" ++ Manager.newline)%string;
    ("  id int" ++ Manager.newline)%string;
    (");" ++ Manager.newline)%string;
    Manager.newline;
    ("DROP TABLE u;" ++ Manager.newline)%string;
    ("CREATE TABLE v (id int);" ++ Manager.newline)%string;
    "SELECT 1" ].

End Toy.

(** The text [{"source": "query"}] *)
Definition unknown_kind_text : string :=
  ("{" ++ quoted "source" ++ ": " ++ quoted "query" ++ "}")%string.

(** The text [{"source": "heartbeat", "clk": 1}] *)
Definition heartbeat_only_text : string :=
  ("{" ++ quoted "source" ++ ": " ++ quoted "heartbeat" ++ ", "
       ++ quoted "clk" ++ ": 1}")%string.

(** The fragment [sample_loads] with two more texts. *)
Definition more_loads (json_string : string) : option value :=
  if String.eqb json_string unknown_kind_text
  then Some (JObject [("source", JString "query")])
  else if String.eqb json_string heartbeat_only_text
  then Some (JObject [("source", JString "heartbeat"); ("clk", JInt 1)])
  else sample_loads json_string.

(** A session whose registry holds [x] under the id 7. *)
Definition registered_world : world :=
  mkWorld fresh_parser
    (catalog ++
     [("mal_variable",
       Dict [("variable_id", JInt 7); ("name", JString "x")])])
    [].




(** The text [{"source": "trace", "state": []}] *)
Definition list_state_text : string :=
  ("{" ++ quoted "source" ++ ": " ++ quoted "trace" ++ ", "
       ++ quoted "state" ++ ": []}")%string.

(** The fragment [more_loads] with that text. *)
Definition list_state_loads (json_string : string) : option value :=
  if String.eqb json_string list_state_text
  then Some (JObject [("source", JString "trace"); ("state", JArray [])])
  else more_loads json_string.



(** ** Reasoning about statements *)

Unset Implicit Arguments.

Lemma bind_Ok {A B} (m : M A) (k : A -> M B) w a w' :
  m w = (Ok a, w') -> bind m k w = k a w'.
Proof. intros H. unfold bind. now rewrite H. Qed.

Lemma bind_Raise {A B} (m : M A) (k : A -> M B) w e w' :
  m w = (Raise e, w') -> bind m k w = (Raise e, w').
Proof. intros H. unfold bind. now rewrite H. Qed.

Lemma table_app tbl (a b : database) :
  table tbl (a ++ b) = table tbl a ++ table tbl b.
Proof. unfold table. now rewrite filter_app, map_app. Qed.

Lemma rows_app tbl (a b : database) :
  rows tbl (a ++ b) = rows tbl a ++ rows tbl b.
Proof. unfold rows. now rewrite table_app, map_app. Qed.

(** Rows of other tables are invisible in a table. *)
Lemma table_others tbl (rest : database) :
  Forall (fun e => String.eqb (fst e) tbl = false) rest ->
  table tbl rest = [].
Proof.
  induction 1 as [|e rest He _ IH]; [reflexivity|].
  unfold table in *. simpl. now rewrite He.
Qed.

Lemma grows_refl P w : grows P w w.
Proof.
  split; [exists []; split; [now rewrite app_nil_r | constructor]|].
  repeat split; lia.
Qed.

Lemma grows_trans P w1 w2 w3 : grows P w1 w2 -> grows P w2 w3 -> grows P w1 w3.
Proof.
  intros [[r1 [S1 F1]] [E1 [X1 [H1 V1]]]] [[r2 [S2 F2]] [E2 [X2 [H2 V2]]]].
  split.
  - exists (r1 ++ r2). split.
    + now rewrite S2, S1, app_assoc.
    + apply Forall_app; now split.
  - repeat split; try congruence; lia.
Qed.

Lemma growing_ret P {A} (a : A) : growing P (ret a).
Proof. intros w. apply grows_refl. Qed.

Lemma growing_lift P {A} (r : result A) : growing P (lift r).
Proof. intros w. apply grows_refl. Qed.

Lemma growing_bind P {A B} (m : M A) (k : A -> M B) :
  growing P m -> (forall a, growing P (k a)) -> growing P (bind m k).
Proof.
  intros Hm Hk w. unfold bind. specialize (Hm w).
  destruct (m w) as [[a|e] w']; simpl in *; [|exact Hm].
  eapply grows_trans; [exact Hm | apply Hk].
Qed.

Lemma growing_for_each P {A} (l : list A) (body : A -> M unit) :
  (forall x, growing P (body x)) -> growing P (for_each l body).
Proof.
  intros Hb. induction l as [|x l IH]; simpl.
  - apply growing_ret.
  - apply growing_bind; [apply Hb | intros _; exact IH].
Qed.

Lemma growing_get_self P : growing P get_self.
Proof. intros w. apply grows_refl. Qed.

Lemma growing_LOGGER P l fmt args : growing P (LOGGER l fmt args).
Proof.
  intros w. split; [exists []; split; [simpl; now rewrite app_nil_r | constructor]|].
  simpl. repeat split; lia.
Qed.

Lemma growing_insert (P : string * payload -> Prop) tbl data :
  P (tbl, data) -> growing P (mdbl_insert tbl data).
Proof.
  intros HP w. split; [exists [(tbl, data)]; split; [reflexivity | now constructor]|].
  simpl. repeat split; lia.
Qed.

Lemma growing_incr_variable_id P : growing P incr_variable_id.
Proof.
  intros w. split; [exists []; split; [simpl; now rewrite app_nil_r | constructor]|].
  simpl. repeat split; lia.
Qed.

(** One statement of a sequence at a time. *)

Lemma run_lift {A B} (a : A) (k : A -> M B) w :
  bind (lift (Ok a)) k w = k a w.
Proof. reflexivity. Qed.

Lemma run_raise {A B} (e : exn) (k : A -> M B) w :
  bind (lift (Raise e)) k w = (Raise e, w).
Proof. reflexivity. Qed.

Lemma run_get_self {B} (k : parser -> M B) w :
  bind get_self k w = k (self w) w.
Proof. reflexivity. Qed.

Lemma run_update_self {B} f (k : unit -> M B) w :
  bind (update_self f) k w
  = k tt (mkWorld (f (self w)) (store w) (logged w)).
Proof. reflexivity. Qed.

Lemma run_insert {B} tbl data (k : unit -> M B) w :
  bind (mdbl_insert tbl data) k w
  = k tt (mkWorld (self w) (store w ++ [(tbl, data)]) (logged w)).
Proof. reflexivity. Qed.


Create HintDb growing.

#[local] Hint Resolve growing_ret growing_lift growing_get_self growing_LOGGER
  growing_incr_variable_id : growing.

Section Properties.

Variable absent : string -> string -> database -> dict -> value.
Variable json_loads : string -> option value.

Lemma growing_stmt_execute P col tbl param :
  growing P (stmt_execute absent col tbl param).
Proof. intros w. apply grows_refl. Qed.

Lemma growing_insert_var_list_entry field var id :
  growing variable_table (insert_var_list_entry field var id).
Proof.
  intros w. unfold insert_var_list_entry, bind, get_self, lift.
  unfold var_list_tables.
  destruct (String.eqb field "ret").
  - apply growing_insert. right; left; reflexivity.
  - destruct (String.eqb field "arg").
    + apply growing_insert. right; right; reflexivity.
    + apply grows_refl.
Qed.

Lemma growing_process_var field var :
  growing variable_table (process_var absent field var).
Proof.
  unfold process_var.
  apply growing_bind; [auto with growing|]. intros name.
  apply growing_bind; [apply growing_stmt_execute|]. intros [|id r].
  - apply growing_bind; [auto with growing|]. intros _.
    apply growing_bind; [auto with growing|]. intros ty.
    apply growing_bind; [apply growing_stmt_execute|]. intros [|type_id r].
    + repeat (apply growing_bind; [auto with growing|]; intros _).
      auto with growing.
    + apply growing_bind; [auto with growing|]. intros p.
      apply growing_bind; [apply growing_insert; left; reflexivity|].
      intros _.
      apply growing_bind; [auto with growing|]. intros p'.
      apply growing_insert_var_list_entry.
  - apply growing_insert_var_list_entry.
Qed.

Lemma growing_process_var_list json_object field :
  growing variable_table (process_var_list absent json_object field).
Proof.
  unfold process_var_list.
  apply growing_bind; [auto with growing|]. intros var_list.
  apply growing_for_each. intros var. apply growing_process_var.
Qed.

Lemma growing_var_lists json_object :
  growing variable_table
    (for_each ["ret"; "arg"] (process_var_list absent json_object)).
Proof. apply growing_for_each. intros f. apply growing_process_var_list. Qed.

(** *** The first half of [_parse_trace] *)

Lemma prerequisite_loop_run prereqs w :
  prerequisite_loop prereqs w
  = (Ok tt,
     mkWorld (self w)
       (store w ++
        map (fun prereq =>
               ("prerequisite_events",
                Dict (prerequisite_data (self w) prereq))) prereqs)
       (logged w)).
Proof.
  unfold prerequisite_loop. revert w.
  induction prereqs as [|x l IH]; intros w; simpl.
  - unfold ret. rewrite app_nil_r. now destruct w.
  - unfold bind at 1. unfold bind at 1. simpl.
    rewrite IH. simpl. now rewrite <- app_assoc.
Qed.

Lemma parse_trace_unfold json_object exec_state prereqs w :
  states_get (Py.get json_object "state") = Ok exec_state ->
  Py.iter (Py.get json_object "prereq") = Ok prereqs ->
  _parse_trace absent json_object w
  = (prerequisite_loop prereqs ;;
     for_each ["ret"; "arg"] (process_var_list absent json_object))
      (after_event json_object exec_state w).
Proof.
  intros Hs Hp. unfold _parse_trace, prerequisite_loop.
  unfold bind at 1. simpl. unfold bind at 1. simpl.
  unfold bind at 1. simpl. unfold bind at 1. simpl.
  unfold bind at 1. unfold lift at 1. rewrite Hs.
  unfold bind at 1. simpl. unfold bind at 1. simpl.
  unfold bind at 1. unfold lift at 1. rewrite Hp.
  unfold after_event. simpl. now rewrite <- app_assoc.
Qed.

Lemma states_get_hashable token :
  Py.hashable token = true ->
  states_get token = Ok (state_enumeration token).
Proof.
  destruct token; simpl; intros H; try discriminate; reflexivity.
Qed.

(** A list or a dict as state token cannot be hashed by [dict.get]. *)
Lemma states_get_unhashable token :
  Py.hashable token = false -> states_get token = Raise TypeError.
Proof. destruct token; simpl; intros H; try discriminate; reflexivity. Qed.

Lemma parse_trace_raise json_object exec_state e w :
  states_get (Py.get json_object "state") = Ok exec_state ->
  Py.iter (Py.get json_object "prereq") = Raise e ->
  _parse_trace absent json_object w
  = (Raise e, after_event json_object exec_state w).
Proof.
  intros Hs Hp. unfold _parse_trace.
  unfold bind at 1. simpl. unfold bind at 1. simpl.
  unfold bind at 1. simpl. unfold bind at 1. simpl.
  unfold bind at 1. unfold lift at 1. rewrite Hs.
  unfold bind at 1. simpl. unfold bind at 1. simpl.
  unfold bind at 1. unfold lift at 1. rewrite Hp.
  unfold after_event. simpl. now rewrite <- app_assoc.
Qed.

(** A trace record whose state and prerequisite list can be read: what the
    store holds and where the counters stand when [_parse_trace] is left,
    by return or by an exception of a variable list. *)
Lemma parse_trace_store json_object exec_state prereqs w :
  states_get (Py.get json_object "state") = Ok exec_state ->
  Py.iter (Py.get json_object "prereq") = Ok prereqs ->
  let w1 := after_event json_object exec_state w in
  let w' := snd (_parse_trace absent json_object w) in
  exists rest,
    store w'
    = store w1
      ++ map (fun prereq =>
                ("prerequisite_events",
                 Dict (prerequisite_data (self w1) prereq))) prereqs
      ++ rest
    /\ Forall variable_table rest
    /\ _event_id (self w') = _event_id (self w) + 1
    /\ _execution_id (self w') = _execution_id (self w) + 1.
Proof.
  intros Hs Hp w1 w'. subst w'.
  rewrite (parse_trace_unfold _ _ _ w Hs Hp). fold w1.
  rewrite (bind_Ok _ _ _ _ _ (prerequisite_loop_run prereqs w1)).
  match goal with |- context [for_each _ _ ?w2] => set (w2' := w2) end.
  destruct (growing_var_lists json_object w2')
    as [[rest [Hst Hall]] [He [Hx _]]].
  exists rest. rewrite Hst, He, Hx. subst w2'. simpl.
  rewrite <- !app_assoc. repeat split; auto.
Qed.

Lemma variable_table_other tbl e :
  variable_table e ->
  String.eqb "mal_variable" tbl = false ->
  String.eqb "return_variable_list" tbl = false ->
  String.eqb "argument_variable_list" tbl = false ->
  String.eqb (fst e) tbl = false.
Proof. intros [H|[H|H]] H1 H2 H3; now rewrite H. Qed.

Lemma rows_variable_tables tbl rest :
  Forall variable_table rest ->
  String.eqb "mal_variable" tbl = false ->
  String.eqb "return_variable_list" tbl = false ->
  String.eqb "argument_variable_list" tbl = false ->
  rows tbl rest = [].
Proof.
  intros Hall H1 H2 H3. unfold rows. rewrite table_others; [reflexivity|].
  eapply Forall_impl; [|exact Hall]. intros e He.
  now apply variable_table_other.
Qed.

Lemma rows_map_other tbl tbl' {A} (f : A -> payload) (l : list A) :
  String.eqb tbl' tbl = false ->
  rows tbl (map (fun x => (tbl', f x)) l) = [].
Proof.
  intros H. unfold rows. rewrite table_others; [reflexivity|].
  apply Forall_forall. intros e He. apply in_map_iff in He.
  destruct He as [x [<- _]]. exact H.
Qed.

Lemma rows_map_same tbl {A} (f : A -> payload) (l : list A) :
  rows tbl (map (fun x => (tbl, f x)) l) = map (fun x => row_of (f x)) l.
Proof.
  unfold rows, table. induction l as [|x l IH]; [reflexivity|].
  simpl. rewrite String.eqb_refl. simpl. now rewrite IH.
Qed.

(** C7, amended. The state token of a trace record, a JSON scalar or
    absent, goes through the enumeration start->0, done->1, pause->2 and
    anything else to null: the lookup does not raise, and the Event row the record adds to
    [profiler_event] carries that value as its [execution_state], whatever
    the rest of the record does. *)
Theorem C7_state_enumeration (json_object : dict) (w : world) :
  let token := Py.get json_object "state" in
  let w' := snd (_parse_trace absent json_object w) in
  Py.hashable token = true ->
  states_get token = Ok (state_enumeration token)
  /\ exists event_row,
       rows "profiler_event" (store w')
       = rows "profiler_event" (store w) ++ [event_row]
       /\ Py.lookup "execution_state" event_row
          = Some (state_enumeration token).
Proof.
  intros token w' Hh. pose proof (states_get_hashable _ Hh) as Hs.
  split; [exact Hs|].
  exists (event_data
            (self (after_event json_object (state_enumeration token) w))
            (state_enumeration token) json_object).
  split; [|reflexivity]. subst w'.
  destruct (Py.iter (Py.get json_object "prereq")) as [prereqs|e] eqn:Hp.
  - destruct (parse_trace_store _ _ _ w Hs Hp) as [rest [Hst [Hall _]]].
    rewrite Hst. rewrite !rows_app.
    rewrite rows_map_other by reflexivity.
    rewrite (rows_variable_tables _ rest Hall) by reflexivity.
    rewrite !app_nil_r. unfold after_event. simpl.
    rewrite rows_app. reflexivity.
  - rewrite (parse_trace_raise _ _ _ w Hs Hp). unfold after_event. simpl.
    rewrite rows_app. reflexivity.
Qed.

(** C9. A trace record whose prerequisite list is [prereqs] adds to
    [prerequisite_events] exactly one row per element, in list order, with
    that element as the prerequisite, whatever it is, and the event id
    allocated for this record as the consequent. *)
Theorem C9_prerequisite_edges (json_object : dict) (prereqs : list value)
        (w : world) :
  let w' := snd (_parse_trace absent json_object w) in
  Py.hashable (Py.get json_object "state") = true ->
  Py.get json_object "prereq" = JArray prereqs ->
  _event_id (self w') = _event_id (self w) + 1
  /\ rows "prerequisite_events" (store w')
     = rows "prerequisite_events" (store w)
       ++ map (fun prereq =>
                 [ ("prerequisite_event", prereq);
                   ("consequent_event", JInt (_event_id (self w'))) ])
              prereqs.
Proof.
  intros w' Hh Hp. pose proof (states_get_hashable _ Hh) as Hs.
  assert (Hi : Py.iter (Py.get json_object "prereq") = Ok prereqs)
    by now rewrite Hp.
  destruct (parse_trace_store _ _ _ w Hs Hi) as [rest [Hst [Hall [He _]]]].
  fold w' in Hst, He. split; [exact He|].
  rewrite Hst, He. rewrite !rows_app.
  rewrite rows_map_same.
  rewrite (rows_variable_tables _ rest Hall) by reflexivity.
  rewrite app_nil_r. unfold after_event. simpl.
  rewrite rows_app. simpl. rewrite app_nil_r. reflexivity.
Qed.


Lemma cpuload_loop_run (samples : list value) (w : world) :
  for_each samples
    (fun c => p <- get_self ;;
              mdbl_insert "cpuload" (Dict (cpuload_data p c))) w
  = (Ok tt,
     mkWorld (self w)
       (store w ++
        map (fun c => ("cpuload", Dict (cpuload_data (self w) c))) samples)
       (logged w)).
Proof.
  revert w. induction samples as [|c l IH]; intros w; simpl.
  - unfold ret. rewrite app_nil_r. now destruct w.
  - unfold bind at 1. unfold bind at 1. simpl.
    rewrite IH. simpl. now rewrite <- app_assoc.
Qed.

Lemma heartbeat_data_hashable (json_object : dict) :
  (forall k, In k data_keys -> Py.hashable (Py.get json_object k) = true) ->
  heartbeat_data json_object
  = Ok (TupleSet (map (fun k => (k, Py.get json_object k)) data_keys)).
Proof.
  intros H. unfold heartbeat_data.
  replace (forallb _ _) with true; [reflexivity|].
  symmetry. apply forallb_forall. intros kv Hin.
  apply in_map_iff in Hin. destruct Hin as [k [<- Hk]]. now apply H.
Qed.

(** C8. A heartbeat record whose five scalar fields are scalars (or absent)
    and whose [cpuload] is a list of K samples returns normally, advances the
    heartbeat counter by one and leaves the other counters alone, and appends
    to the store one row of [heartbeat] followed by K rows of [cpuload], one
    per sample in list order, each with the new heartbeat id. *)
Theorem C8_heartbeat_fan_out (json_object : dict) (samples : list value)
        (w : world) :
  let heartbeat_id := _heartbeat_id (self w) + 1 in
  (forall k, In k data_keys -> Py.hashable (Py.get json_object k) = true) ->
  Py.lookup "cpuload" json_object = Some (JArray samples) ->
  exists data,
    heartbeat_data json_object = Ok data
    /\ _parse_heartbeat json_object w
       = (Ok tt,
          mkWorld (heartbeat_id_allocated (self w))
            (store w
             ++ [("heartbeat", data)]
             ++ map (fun c =>
                       ("cpuload",
                        Dict [ ("heartbeat_id", JInt heartbeat_id);
                               ("val", c) ])) samples)
            (logged w))
    /\ length (rows "cpuload"
                 (store (snd (_parse_heartbeat json_object w))))
       = (length (rows "cpuload" (store w)) + length samples)%nat
    /\ length (rows "heartbeat"
                 (store (snd (_parse_heartbeat json_object w))))
       = (length (rows "heartbeat" (store w)) + 1)%nat.
Proof.
  intros hb Hh Hc. pose proof (heartbeat_data_hashable _ Hh) as Hd.
  eexists. split; [exact Hd|].
  assert (Hrun : _parse_heartbeat json_object w
       = (Ok tt,
          mkWorld (heartbeat_id_allocated (self w))
            (store w
             ++ [("heartbeat",
                  TupleSet (map (fun k => (k, Py.get json_object k))
                                data_keys))]
             ++ map (fun c =>
                       ("cpuload",
                        Dict [ ("heartbeat_id", JInt hb); ("val", c) ]))
                    samples)
            (logged w))).
  { unfold _parse_heartbeat.
    unfold bind at 1. simpl.
    unfold bind at 1. unfold lift at 1. rewrite Hd.
    unfold bind at 1. simpl.
    unfold bind at 1. unfold lift at 1. unfold Py.item. rewrite Hc.
    unfold bind at 1. unfold lift at 1. simpl Py.iter. cbv iota.
    rewrite cpuload_loop_run. simpl. now rewrite <- app_assoc. }
  split; [exact Hrun|]. rewrite Hrun. cbn [snd store].
  rewrite !rows_app, !length_app.
  rewrite (rows_map_same "cpuload"
             (fun c => Dict [ ("heartbeat_id", JInt hb); ("val", c) ])).
  rewrite (rows_map_other "heartbeat" "cpuload"
             (fun c => Dict [ ("heartbeat_id", JInt hb); ("val", c) ]))
    by reflexivity.
  rewrite !length_map. simpl. split; lia.
Qed.


(** *** [parse_object] *)

Lemma parse_object_dispatch (json_string : string) (json_object : dict)
      (source : string) (w : world) :
  json_loads json_string = Some (JObject json_object) ->
  Py.lookup "source" json_object = Some (JString source) ->
  parse_object absent json_loads json_string w
  = try_except_KeyError
      (dispatcher absent (JString source) json_object)
      (LOGGER ERROR "Unkown JSON object kind: %s" [JString source] ;; ret tt)
      w.
Proof.
  intros Hl Hs. unfold parse_object. rewrite Hl.
  unfold bind at 1. unfold lift at 1. simpl Py.attr_get. cbv iota.
  unfold Py.get. rewrite Hs. cbv iota.
  unfold try_except_KeyError. simpl dict_of.
  destruct (dispatcher absent (JString source) json_object w)
    as [[[]|[]] w1]; try reflexivity.
  unfold bind at 1. unfold lift at 1. simpl Py.subscript.
  unfold Py.item. rewrite Hs. reflexivity.
Qed.

(** A JSON text that decodes to anything but an object: [json_object.get]
    raises [AttributeError], which nothing catches. *)
Lemma parse_object_not_a_dict (json_string : string) (v : value) (w : world) :
  json_loads json_string = Some v ->
  (forall d, v <> JObject d) ->
  parse_object absent json_loads json_string w = (Raise AttributeError, w).
Proof.
  intros Hl Hv. unfold parse_object. rewrite Hl.
  destruct v; try reflexivity. now elim (Hv kv).
Qed.

(** A text that does not decode is logged and dropped. *)
Lemma parse_object_malformed (json_string : string) (w : world) :
  json_loads json_string = None ->
  parse_object absent json_loads json_string w
  = (Ok tt,
     mkWorld (self w) (store w)
       (logged w ++
        [ mkLog WARNING "W001: Cannot parse object" [];
          mkLog WARNING json_string [];
          mkLog WARNING "Decoder reports %s" [JString json_string] ])).
Proof.
  intros Hl. unfold parse_object. rewrite Hl.
  unfold bind, LOGGER, ret. simpl. now rewrite <- !app_assoc.
Qed.

(** C2. A text that decodes to an object without a [source] key is not
    dropped: after the first error is logged, the second logging statement
    evaluates [json_object['source']] and [parse_object] leaves with the
    [KeyError] of that lookup. *)
Theorem C2_absent_discriminator_raises (json_string : string)
        (json_object : dict) (w : world) :
  json_loads json_string = Some (JObject json_object) ->
  Py.lookup "source" json_object = None ->
  parse_object absent json_loads json_string w
  = (Raise KeyError,
     mkWorld (self w) (store w)
       (logged w ++ [mkLog ERROR "Unkown JSON object" []])).
Proof.
  intros Hl Hs. unfold parse_object. rewrite Hl.
  unfold bind at 1. unfold lift at 1. simpl Py.attr_get. cbv iota.
  unfold Py.get. rewrite Hs. cbv iota.
  unfold bind at 1. simpl.
  unfold bind at 1. unfold lift at 1. unfold Py.item. now rewrite Hs.
Qed.

(** C10. A record whose discriminator is [trace] or [heartbeat] and whose
    normalizer raises: a [KeyError] is caught, logged as an unknown object
    kind, and [parse_object] returns normally with the state the normalizer
    had reached; any other exception leaves [parse_object] as it was raised,
    with that same state. *)
Theorem C10_only_KeyError_is_caught (json_string : string)
        (json_object : dict) (source : string) (e : exn) (w w' : world) :
  json_loads json_string = Some (JObject json_object) ->
  Py.lookup "source" json_object = Some (JString source) ->
  (source = "trace" /\ _parse_trace absent json_object w = (Raise e, w'))
  \/ (source = "heartbeat" /\ _parse_heartbeat json_object w = (Raise e, w'))
  ->
  parse_object absent json_loads json_string w
  = match e with
    | KeyError =>
        (Ok tt,
         mkWorld (self w') (store w')
           (logged w' ++
            [mkLog ERROR "Unkown JSON object kind: %s" [JString source]]))
    | _ => (Raise e, w')
    end.
Proof.
  intros Hl Hs Hn. rewrite (parse_object_dispatch _ _ _ w Hl Hs).
  unfold try_except_KeyError.
  assert (Hd : dispatcher absent (JString source) json_object w
               = (Raise e, w')).
  { destruct Hn as [[-> H]|[-> H]]; simpl; exact H. }
  rewrite Hd. destruct e; reflexivity.
Qed.

(** *** One variable *)

(** A new name with a type the catalog does not hold: lines 85-94. *)
Lemma process_var_unknown_type (field : string) (var name ty : value)
        (w : world) :
  Py.subscript var "name" = Ok name ->
  Py.subscript var "type" = Ok ty ->
  known absent (store w) name = false ->
  in_catalog absent (store w) ty = false ->
  process_var absent field var w
  = (Ok tt,
     mkWorld (variable_id_consumed (self w)) (store w)
       (logged w ++
        [ mkLog WARNING "Unkown type: {}" [ty];
          mkLog WARNING "Ignoring variable: {}" [name] ])).
Proof.
  intros Hn Ht Hk Hc.
  assert (Hk' : select absent "variable_id" "mal_variable" (Some name)
                  (store w) = []).
  { unfold known in Hk. now destruct (select _ _ _ _ _). }
  assert (Hc' : select absent "type_id" "mal_type" (Some ty) (store w) = []).
  { unfold in_catalog in Hc. now destruct (select _ _ _ _ _). }
  unfold process_var.
  unfold bind at 1. unfold lift at 1. rewrite Hn.
  unfold bind at 1. unfold stmt_execute at 1. rewrite Hk'.
  unfold bind at 1. simpl.
  unfold bind at 1. unfold lift at 1. rewrite Ht.
  unfold bind at 1. unfold stmt_execute at 1. cbn beta iota.
  cbn [store]. rewrite Hc'.
  unfold bind, LOGGER, ret. simpl. now rewrite <- app_assoc.
Qed.

(** C3, amended. A variable whose name is new and whose type name the
    catalog does not hold: [process_var] returns normally, the store is left
    exactly as it was (no Variable row, no list entry, the registry
    untouched), two warnings are logged, and of the four counters only the
    variable counter has moved, by the one id taken before the type was
    looked up. *)
Theorem C3_unknown_type_skips_variable (field : string) (var name ty : value)
        (w : world) :
  Py.subscript var "name" = Ok name ->
  Py.subscript var "type" = Ok ty ->
  known absent (store w) name = false ->
  in_catalog absent (store w) ty = false ->
  process_var absent field var w
  = (Ok tt,
     mkWorld (variable_id_consumed (self w)) (store w)
       (logged w ++
        [ mkLog WARNING "Unkown type: {}" [ty];
          mkLog WARNING "Ignoring variable: {}" [name] ])).
Proof. apply process_var_unknown_type. Qed.


(** *** Rows and ids *)

Lemma constructor_seed (args : list value) (p : parser) :
  ProfilerObjectParser args = Ok p ->
  _execution_id p = 0 /\ _event_id p = 0 /\ _variable_id p = 0
  /\ _heartbeat_id p = 0.
Proof.
  destruct args as [|db [|x args]]; simpl; intros H; try discriminate.
  injection H as <-. simpl. auto.
Qed.

Lemma twice_record_ids :
  referenced_ids
    (store (snd (_parse_trace absent twice_record fresh_world)))
  = [JInt 1; stored_variable_id absent].
Proof. vm_compute. reflexivity. Qed.

Lemma twice_after_failure_record_ids :
  referenced_ids
    (store (snd (_parse_trace absent twice_after_failure_record
                   fresh_world)))
  = [JInt 2; stored_variable_id absent].
Proof. vm_compute. reflexivity. Qed.

(** C4. Whatever the store reads back from the [variable_id] column that the
    Variable row never carried, one of two records that name [y] twice gets
    two different variable ids for it, with a single Variable row stored: the
    first reference takes the counter, 1 in one record and 2 in the other,
    and the second takes what the store reads back, the same in both. *)
Theorem C4_same_name_two_ids :
  exists json_object id1 id2,
    (json_object = twice_record \/ json_object = twice_after_failure_record)
    /\ let db := store (snd (_parse_trace absent json_object fresh_world)) in
       referenced_ids db = [id1; id2]
       /\ id1 <> id2
       /\ variable_rows db = 1%nat.
Proof.
  assert (Hdec : stored_variable_id absent = JInt 1
                 \/ stored_variable_id absent <> JInt 1).
  { destruct (stored_variable_id absent) as [| | n | | | |];
      try (right; discriminate).
    destruct (Z.eq_dec n 1) as [->|Hn]; [now left|].
    right. intros H. injection H as H. contradiction. }
  destruct Hdec as [Heq|Hneq].
  - exists twice_after_failure_record, (JInt 2), (stored_variable_id absent).
    split; [now right|]. split; [apply twice_after_failure_record_ids|].
    split; [rewrite Heq; discriminate | vm_compute; reflexivity].
  - exists twice_record, (JInt 1), (stored_variable_id absent).
    split; [now left|]. split; [apply twice_record_ids|].
    split; [congruence | vm_compute; reflexivity].
Qed.

(** C5. No Variable row carries a [variable_id]; the data of a heartbeat is
    a set of tuples without a [heartbeat_id], whose [server_session] is read
    from the input key of that name, so that a record with a [session]
    stores null there. *)
Theorem C5_rows_without_surrogate_id :
  (forall p type_id var,
      Py.lookup "variable_id" (variable_data p type_id var) = None)
  /\ (forall json_object,
         match heartbeat_data json_object with
         | Ok (TupleSet pairs) =>
             Py.lookup "heartbeat_id" pairs = None
             /\ Py.lookup "server_session" pairs
                = Some (Py.get json_object "server_session")
         | Ok (Dict _) => False
         | Raise _ => True
         end)
  /\ table "heartbeat"
       (store (snd (_parse_heartbeat (heartbeat_record []) fresh_world)))
     = [ TupleSet [ ("server_session", JNull); ("clk", JInt 10);
                    ("ctime", JInt 20); ("rss", JInt 30);
                    ("nvcsw", JInt 40) ] ].
Proof.
  split; [reflexivity|]. split; [|vm_compute; reflexivity].
  intros json_object. unfold heartbeat_data.
  destruct (forallb _ _); [|exact I]. split; reflexivity.
Qed.


(** *** The registry and the catalog under inserts *)

Lemma scan_app tbl col where_name (r1 : database) :
  forall before r2,
    scan absent tbl col where_name before (r1 ++ r2)
    = scan absent tbl col where_name before r1
      ++ scan absent tbl col where_name (before ++ r1) r2.
Proof.
  induction r1 as [|[t p] r1 IH]; intros before r2; simpl.
  - now rewrite app_nil_r.
  - rewrite IH. rewrite <- !app_assoc. reflexivity.
Qed.

Lemma scan_others tbl col where_name (rest : database) :
  Forall (fun e => String.eqb (fst e) tbl = false) rest ->
  forall before, scan absent tbl col where_name before rest = [].
Proof.
  induction 1 as [|[t p] rest He _ IH]; intros before; simpl.
  - reflexivity.
  - simpl in He. rewrite He. simpl. apply IH.
Qed.

Lemma select_app col tbl where_name (db rest : database) :
  select absent col tbl where_name (db ++ rest)
  = select absent col tbl where_name db
    ++ scan absent tbl col where_name db rest.
Proof. unfold select. now rewrite scan_app. Qed.

Lemma select_app_others col tbl where_name (db rest : database) :
  Forall (fun e => String.eqb (fst e) tbl = false) rest ->
  select absent col tbl where_name (db ++ rest)
  = select absent col tbl where_name db.
Proof.
  intros H. rewrite select_app, scan_others by exact H. apply app_nil_r.
Qed.

Lemma known_app_others (db rest : database) name :
  Forall (fun e => String.eqb (fst e) "mal_variable" = false) rest ->
  known absent (db ++ rest) name = known absent db name.
Proof. intros H. unfold known. now rewrite select_app_others. Qed.

Lemma in_catalog_app_others (db rest : database) ty :
  Forall (fun e => String.eqb (fst e) "mal_type" = false) rest ->
  in_catalog absent (db ++ rest) ty = in_catalog absent db ty.
Proof. intros H. unfold in_catalog. now rewrite select_app_others. Qed.

Lemma variable_table_not_catalog (rest : database) :
  Forall variable_table rest ->
  Forall (fun e => String.eqb (fst e) "mal_type" = false) rest.
Proof.
  intros H. eapply Forall_impl; [|exact H]. intros e He.
  now apply variable_table_other.
Qed.

(** A Variable row registers its name and no other. *)
Lemma known_after_variable_row (db : database) vrow tbl lrow n m :
  Py.lookup "name" vrow = Some (JString n) ->
  String.eqb tbl "mal_variable" = false ->
  known absent (db ++ [("mal_variable", Dict vrow); (tbl, lrow)]) (JString m)
  = true ->
  known absent db (JString m) = true \/ m = n.
Proof.
  intros Hn Ht. unfold known. rewrite select_app.
  destruct (select absent "variable_id" "mal_variable" (Some (JString m)) db)
    as [|id ids]; [|now left].
  simpl. rewrite Ht. simpl. unfold column at 1. simpl row_of. rewrite Hn.
  simpl. destruct (String.eqb n m) eqn:E; [|discriminate].
  intros _. right. symmetry. now apply String.eqb_eq.
Qed.

Lemma var_list_tables_cases field tbl :
  var_list_tables field = Ok tbl ->
  tbl = "return_variable_list" \/ tbl = "argument_variable_list".
Proof.
  unfold var_list_tables.
  destruct (String.eqb field "ret"); [intros H; injection H as <-; now left|].
  destruct (String.eqb field "arg"); [intros H; injection H as <-; now right|].
  discriminate.
Qed.

Lemma entry_name_subscript var n :
  entry_name var = Some n -> Py.subscript var "name" = Ok (JString n).
Proof.
  destruct var; simpl; try discriminate. unfold Py.item.
  destruct (Py.lookup "name" kv) as [[]|]; try discriminate.
  now intros [= ->].
Qed.

Lemma entry_type_subscript var ty :
  entry_type var = Some ty -> Py.subscript var "type" = Ok ty.
Proof.
  destruct var; simpl; try discriminate. unfold Py.item.
  now intros ->.
Qed.

Lemma entry_name_row p type_id var n :
  entry_name var = Some n ->
  Py.lookup "name" (variable_data p type_id var) = Some (JString n).
Proof.
  destruct var; simpl; try discriminate. unfold Py.get.
  destruct (Py.lookup "name" kv) as [[]|]; try discriminate.
  now intros [= ->].
Qed.


Lemma recognized_inv db var :
  recognized absent db var = true ->
  exists n ty, entry_name var = Some n /\ entry_type var = Some ty
               /\ in_catalog absent db ty = true.
Proof.
  unfold recognized.
  destruct (entry_name var) as [n|]; [|discriminate].
  destruct (entry_type var) as [ty|]; [|discriminate].
  intros H. now exists n, ty.
Qed.

Lemma list_entry_rows_entry (db : database) tbl data :
  tbl = "return_variable_list" \/ tbl = "argument_variable_list" ->
  list_entry_rows (db ++ [(tbl, data)]) = (list_entry_rows db + 1)%nat
  /\ variable_rows (db ++ [(tbl, data)]) = variable_rows db.
Proof.
  unfold list_entry_rows, variable_rows. rewrite !table_app, !length_app.
  intros [->| ->]; simpl; lia.
Qed.

Lemma list_entry_rows_variable (db : database) data :
  list_entry_rows (db ++ [("mal_variable", data)]) = list_entry_rows db
  /\ variable_rows (db ++ [("mal_variable", data)])
     = (variable_rows db + 1)%nat.
Proof.
  unfold list_entry_rows, variable_rows. rewrite !table_app, !length_app.
  simpl. lia.
Qed.

(** A named entry whose type the catalog holds: lines 75-121 return
    normally and store its list entry, after its Variable row when the name
    is new. *)
Lemma process_var_recognized field var n w :
  field = "ret" \/ field = "arg" ->
  entry_name var = Some n ->
  recognized absent (store w) var = true ->
  exists w',
    process_var absent field var w = (Ok tt, w') /\ registers absent n w w'.
Proof.
  intros Hf Hn Hr.
  destruct (recognized_inv _ _ Hr) as [n' [ty [Hn' [Hty Hc]]]].
  rewrite Hn in Hn'. injection Hn' as <-.
  assert (Htbl : exists tbl, var_list_tables field = Ok tbl).
  { destruct Hf as [-> | ->]; eexists; reflexivity. }
  destruct Htbl as [tbl Htbl].
  pose proof (var_list_tables_cases _ _ Htbl) as Hcases.
  assert (Hnv : String.eqb tbl "mal_variable" = false)
    by (destruct Hcases as [-> | ->]; reflexivity).
  assert (Hnt : String.eqb tbl "mal_type" = false)
    by (destruct Hcases as [-> | ->]; reflexivity).
  assert (Hvt : forall data, variable_table (tbl, data)).
  { intros data. right. destruct Hcases as [-> | ->]; [now left | now right]. }
  unfold process_var.
  rewrite (entry_name_subscript _ _ Hn), run_lift.
  unfold bind at 1. unfold stmt_execute at 1.
  destruct (select absent "variable_id" "mal_variable" (Some (JString n))
              (store w)) as [|id ids] eqn:Hsel.
  - (* a new name *)
    unfold incr_variable_id. rewrite run_update_self.
    rewrite (entry_type_subscript _ _ Hty), run_lift.
    unfold bind at 1. unfold stmt_execute at 1. cbn [store].
    assert (Hts : exists type_id tids,
               select absent "type_id" "mal_type" (Some ty) (store w)
               = type_id :: tids).
    { unfold in_catalog in Hc.
      destruct (select absent "type_id" "mal_type" (Some ty) (store w))
        as [|type_id tids]; [discriminate | now exists type_id, tids]. }
    destruct Hts as [type_id [tids Hts]]. rewrite Hts.
    rewrite run_get_self, run_insert, run_get_self.
    unfold insert_var_list_entry.
    rewrite run_get_self, Htbl, run_lift. unfold mdbl_insert. cbn [self store logged].
    eexists. split; [reflexivity|].
    unfold registers. simpl store.
    split; [|split; [|split; [|split]]].
    + rewrite (proj1 (list_entry_rows_entry _ _ _ Hcases)).
      now rewrite (proj1 (list_entry_rows_variable _ _)).
    + rewrite (proj2 (list_entry_rows_entry _ _ _ Hcases)).
      rewrite (proj2 (list_entry_rows_variable _ _)). lia.
    + intros ty'. rewrite <- app_assoc. apply in_catalog_app_others.
      repeat constructor. simpl. exact Hnt.
    + intros m. rewrite <- app_assoc.
      apply known_after_variable_row; [|exact Hnv].
      now apply entry_name_row.
    + split.
      * eexists. split; [rewrite <- app_assoc; reflexivity|].
        constructor; [left; reflexivity|].
        constructor; [apply Hvt | constructor].
      * simpl. repeat split; lia.
  - (* a known name *)
    unfold insert_var_list_entry.
    rewrite run_get_self, Htbl, run_lift. unfold mdbl_insert.
    eexists. split; [reflexivity|].
    unfold registers. simpl store.
    split; [|split; [|split; [|split]]].
    + apply (list_entry_rows_entry _ _ _ Hcases).
    + rewrite (proj2 (list_entry_rows_entry _ _ _ Hcases)). lia.
    + intros ty'. apply in_catalog_app_others.
      repeat constructor. simpl. exact Hnt.
    + intros m Hm. left. rewrite known_app_others in Hm; [exact Hm|].
      repeat constructor. simpl. exact Hnv.
    + split.
      * eexists. split; [reflexivity|].
        constructor; [apply Hvt | constructor].
      * simpl. repeat split; lia.
Qed.


(** *** The variable lists of a record *)

Lemma for_each_app {A} (l1 l2 : list A) (body : A -> M unit) w :
  for_each (l1 ++ l2) body w
  = (for_each l1 body ;; for_each l2 body) w.
Proof.
  revert w. induction l1 as [|x l1 IH]; intros w; simpl.
  - reflexivity.
  - unfold bind. destruct (body x w) as [[[]|e] w1]; [|reflexivity].
    rewrite IH. reflexivity.
Qed.

Lemma for_each_map {A B} (g : A -> B) (l : list A) (body : B -> M unit) w :
  for_each (map g l) body w = for_each l (fun x => body (g x)) w.
Proof.
  revert w. induction l as [|x l IH]; intros w; simpl.
  - reflexivity.
  - unfold bind. destruct (body (g x) w) as [[[]|e] w1]; [|reflexivity].
    apply IH.
Qed.

Lemma bind_ret_tt (m : M unit) w : (m ;; ret tt) w = m w.
Proof. unfold bind. now destruct (m w) as [[[]|e] w1]. Qed.

Lemma var_lists_as_entries json_object rets args w :
  Py.get_default json_object "ret" (JArray []) = JArray rets ->
  Py.get_default json_object "arg" (JArray []) = JArray args ->
  for_each ["ret"; "arg"] (process_var_list absent json_object) w
  = for_each (variable_list_entries rets args) (process_entry absent) w.
Proof.
  intros Hr Ha. unfold variable_list_entries. rewrite for_each_app.
  simpl for_each. unfold process_var_list at 1. rewrite Hr.
  simpl Py.iter. unfold bind at 1. unfold bind at 3.
  unfold bind at 1. unfold lift at 1.
  rewrite for_each_map. unfold process_entry at 1. simpl fst. simpl snd.
  destruct (for_each rets (fun x => process_var absent "ret" x) w)
    as [[[]|e] w1] eqn:E.
  - replace (for_each rets (process_var absent "ret") w) with (Ok tt, w1).
    rewrite bind_ret_tt. unfold process_var_list. rewrite Ha.
    simpl Py.iter. rewrite run_lift. rewrite for_each_map. reflexivity.
  - replace (for_each rets (process_var absent "ret") w)
      with (@Raise unit e, w1). reflexivity.
Qed.

Lemma entries_field rets args e :
  In e (variable_list_entries rets args) ->
  fst e = "ret" \/ fst e = "arg".
Proof.
  unfold variable_list_entries. rewrite in_app_iff, !in_map_iff.
  intros [[x [<- _]]|[x [<- _]]]; [now left | now right].
Qed.

Lemma recognized_same_catalog db db' var :
  (forall ty, in_catalog absent db' ty = in_catalog absent db ty) ->
  recognized absent db' var = recognized absent db var.
Proof.
  intros H. unfold recognized.
  destruct (entry_name var); [|reflexivity].
  destruct (entry_type var); [apply H | reflexivity].
Qed.

(** Entries that are all recognized: each gets its list entry. *)
Lemma entries_recognized (es : list (string * value)) :
  forall w,
    Forall (fun e => (fst e = "ret" \/ fst e = "arg")
                     /\ recognized absent (store w) (snd e) = true) es ->
    exists w',
      for_each es (process_entry absent) w = (Ok tt, w')
      /\ list_entry_rows (store w')
         = (list_entry_rows (store w) + length es)%nat
      /\ (variable_rows (store w')
          <= variable_rows (store w) + length es)%nat
      /\ (forall ty,
             in_catalog absent (store w') ty = in_catalog absent (store w) ty)
      /\ (forall m,
             known absent (store w') (JString m) = true ->
             known absent (store w) (JString m) = true
             \/ In (Some m) (entry_names es))
      /\ grows variable_table w w'.
Proof.
  induction es as [|e es IH]; intros w Hall.
  - exists w. simpl. repeat split; try lia; auto. apply grows_refl.
  - inversion Hall as [|e' es' [Hf Hr] Hrest]; subst.
    destruct (recognized_inv _ _ Hr) as [n [ty [Hn [_ _]]]].
    destruct (process_var_recognized _ _ _ w Hf Hn Hr)
      as [w1 [Hrun [Hl [Hv [Hc [Hk Hg]]]]]].
    destruct (IH w1) as [w2 [Hrun2 [Hl2 [Hv2 [Hc2 [Hk2 Hg2]]]]]].
    { eapply Forall_impl; [|exact Hrest]. intros x [Hxf Hxr].
      split; [exact Hxf|]. now rewrite (recognized_same_catalog _ _ _ Hc). }
    exists w2. simpl for_each.
    rewrite (bind_Ok _ _ _ _ _ Hrun). split; [exact Hrun2|].
    simpl length. repeat split.
    + lia.
    + lia.
    + intros ty'. now rewrite Hc2, Hc.
    + intros m Hm. destruct (Hk2 m Hm) as [H|H].
      * destruct (Hk m H) as [H'| ->]; [now left|].
        right. left. exact Hn.
      * right. right. exact H.
    + destruct Hg2 as [H _]. destruct Hg as [H' _].
      destruct H as [r2 [S2 F2]]. destruct H' as [r1 [S1 F1]].
      exists (r1 ++ r2). split; [now rewrite S2, S1, app_assoc|].
      apply Forall_app. now split.
    + destruct Hg as [_ [H _]]. destruct Hg2 as [_ [H2 _]]. congruence.
    + destruct Hg as [_ [_ [H _]]]. destruct Hg2 as [_ [_ [H2 _]]].
      congruence.
    + destruct Hg as [_ [_ [_ [H _]]]]. destruct Hg2 as [_ [_ [_ [H2 _]]]].
      congruence.
    + destruct Hg as [_ [_ [_ [_ H]]]]. destruct Hg2 as [_ [_ [_ [_ H2]]]].
      lia.
Qed.


Lemma table_app_others tbl (db rest : database) :
  Forall (fun e => String.eqb (fst e) tbl = false) rest ->
  table tbl (db ++ rest) = table tbl db.
Proof.
  intros H. rewrite table_app, (table_others tbl rest H). apply app_nil_r.
Qed.

Lemma after_prerequisites_untouched tbl json_object exec_state prereqs w :
  String.eqb "mal_execution" tbl = false ->
  String.eqb "profiler_event" tbl = false ->
  String.eqb "prerequisite_events" tbl = false ->
  exists rest,
    store (after_prerequisites json_object exec_state prereqs w)
    = store w ++ rest
    /\ Forall (fun e => String.eqb (fst e) tbl = false) rest.
Proof.
  intros H1 H2 H3. unfold after_prerequisites, after_event. simpl.
  rewrite <- app_assoc. eexists. split; [reflexivity|].
  apply Forall_app. split.
  - constructor; [exact H1|]. constructor; [exact H2|]. constructor.
  - apply Forall_forall. intros e He. apply in_map_iff in He.
    destruct He as [x [<- _]]. exact H3.
Qed.

Lemma parse_trace_entries json_object prereqs rets args w :
  Py.hashable (Py.get json_object "state") = true ->
  Py.get json_object "prereq" = JArray prereqs ->
  Py.get_default json_object "ret" (JArray []) = JArray rets ->
  Py.get_default json_object "arg" (JArray []) = JArray args ->
  _parse_trace absent json_object w
  = for_each (variable_list_entries rets args) (process_entry absent)
      (after_prerequisites json_object
         (state_enumeration (Py.get json_object "state")) prereqs w).
Proof.
  intros Hh Hp Hr Ha. pose proof (states_get_hashable _ Hh) as Hs.
  assert (Hi : Py.iter (Py.get json_object "prereq") = Ok prereqs)
    by now rewrite Hp.
  rewrite (parse_trace_unfold _ _ _ w Hs Hi).
  rewrite (bind_Ok _ _ _ _ _ (prerequisite_loop_run prereqs _)).
  now rewrite (var_lists_as_entries _ _ _ _ Hr Ha).
Qed.

(** C6, amended. A trace record with N variable-list entries, all named and
    of recognized type but one, whose type the catalog does not hold and
    whose name is new when its turn comes: the record returns normally, its
    Execution row and its Event row are stored, exactly N-1 list entries are
    stored, those of already-known names among them, and at most N-1 Variable
    rows. *)
Theorem C6_unknown_type_isolation (json_object : dict)
        (prereqs rets args : list value) (pre post : list (string * value))
        (field : string) (bad : value) (name : string) (w : world) :
  let w' := snd (_parse_trace absent json_object w) in
  let N := (length rets + length args)%nat in
  Py.hashable (Py.get json_object "state") = true ->
  Py.get json_object "prereq" = JArray prereqs ->
  Py.get_default json_object "ret" (JArray []) = JArray rets ->
  Py.get_default json_object "arg" (JArray []) = JArray args ->
  variable_list_entries rets args = pre ++ (field, bad) :: post ->
  Forall (fun e => recognized absent (store w) (snd e) = true) (pre ++ post) ->
  unrecognized absent (store w) bad = true ->
  entry_name bad = Some name ->
  known absent (store w) (JString name) = false ->
  ~ In (Some name) (entry_names pre) ->
  fst (_parse_trace absent json_object w) = Ok tt
  /\ length (rows "mal_execution" (store w'))
     = (length (rows "mal_execution" (store w)) + 1)%nat
  /\ length (rows "profiler_event" (store w'))
     = (length (rows "profiler_event" (store w)) + 1)%nat
  /\ list_entry_rows (store w') = (list_entry_rows (store w) + (N - 1))%nat
  /\ (variable_rows (store w') <= variable_rows (store w) + (N - 1))%nat.
Proof.
  intros w' N Hh Hp Hr Ha Hsplit Hrec Hbad Hname Hnew Hfresh.
  (* the rows stored before the variable lists *)
  pose proof (states_get_hashable _ Hh) as Hs.
  assert (Hi : Py.iter (Py.get json_object "prereq") = Ok prereqs)
    by now rewrite Hp.
  destruct (parse_trace_store _ _ _ w Hs Hi) as [rest [Hst [Hrest _]]].
  fold w' in Hst.
  set (w2 := after_prerequisites json_object
               (state_enumeration (Py.get json_object "state")) prereqs w).
  destruct (after_prerequisites_untouched "mal_type" json_object
              (state_enumeration (Py.get json_object "state")) prereqs w
              eq_refl eq_refl eq_refl) as [r0 [S0 F0]].
  destruct (after_prerequisites_untouched "mal_variable" json_object
              (state_enumeration (Py.get json_object "state")) prereqs w
              eq_refl eq_refl eq_refl) as [r1 [S1 F1]].
  destruct (after_prerequisites_untouched "return_variable_list" json_object
              (state_enumeration (Py.get json_object "state")) prereqs w
              eq_refl eq_refl eq_refl) as [r2 [S2 F2]].
  destruct (after_prerequisites_untouched "argument_variable_list"
              json_object
              (state_enumeration (Py.get json_object "state")) prereqs w
              eq_refl eq_refl eq_refl) as [r3 [S3 F3]].
  fold w2 in S0, S1, S2, S3.
  assert (Hcat : forall ty,
             in_catalog absent (store w2) ty = in_catalog absent (store w) ty).
  { intros ty. rewrite S0. now apply in_catalog_app_others. }
  assert (Hkn : forall n,
             known absent (store w2) n = known absent (store w) n).
  { intros n. rewrite S1. now apply known_app_others. }
  assert (Hl2 : list_entry_rows (store w2) = list_entry_rows (store w)).
  { unfold list_entry_rows. rewrite S2 at 1. rewrite S3.
    now rewrite !table_app_others. }
  assert (Hv2 : variable_rows (store w2) = variable_rows (store w)).
  { unfold variable_rows. rewrite S1. now rewrite table_app_others. }
  (* the three stretches of the entries *)
  assert (Hfields : forall e, In e (pre ++ (field, bad) :: post) ->
                              fst e = "ret" \/ fst e = "arg").
  { intros e He. rewrite <- Hsplit in He. exact (entries_field _ _ _ He). }
  apply Forall_app in Hrec. destruct Hrec as [Hpre Hpost].
  destruct (entries_recognized pre w2)
    as [w3 [R3 [L3 [V3 [C3 [K3 G3]]]]]].
  { apply Forall_forall. intros e He. split.
    - apply Hfields. apply in_or_app. now left.
    - rewrite (recognized_same_catalog _ _ _ Hcat).
      exact (proj1 (Forall_forall _ _) Hpre e He). }
  assert (Hty : exists ty, entry_type bad = Some ty
                           /\ in_catalog absent (store w) ty = false).
  { unfold unrecognized in Hbad. rewrite Hname in Hbad.
    destruct (entry_type bad) as [ty|]; [|discriminate].
    exists ty. split; [reflexivity|].
    now destruct (in_catalog absent (store w) ty). }
  destruct Hty as [ty [Hty Hnc]].
  assert (Hk3 : known absent (store w3) (JString name) = false).
  { destruct (known absent (store w3) (JString name)) eqn:E; [|reflexivity].
    destruct (K3 _ E) as [H|H]; [|contradiction].
    rewrite Hkn in H. congruence. }
  pose proof (process_var_unknown_type field bad (JString name) ty w3
                (entry_name_subscript _ _ Hname)
                (entry_type_subscript _ _ Hty) Hk3
                ltac:(now rewrite C3, Hcat)) as R4.
  set (w4 := mkWorld (variable_id_consumed (self w3)) (store w3)
               (logged w3 ++
                [ mkLog WARNING "Unkown type: {}" [ty];
                  mkLog WARNING "Ignoring variable: {}" [JString name] ]))
    in R4.
  destruct (entries_recognized post w4)
    as [w5 [R5 [L5 [V5 _]]]].
  { apply Forall_forall. intros e He. split.
    - apply Hfields. apply in_or_app. right. now right.
    - unfold w4. simpl store.
      rewrite (recognized_same_catalog (store w2) (store w3) _ C3).
      rewrite (recognized_same_catalog _ _ _ Hcat).
      exact (proj1 (Forall_forall _ _) Hpost e He). }
  assert (Hrun : _parse_trace absent json_object w = (Ok tt, w5)).
  { rewrite (parse_trace_entries _ _ _ _ w Hh Hp Hr Ha). fold w2.
    rewrite Hsplit, for_each_app. rewrite (bind_Ok _ _ _ _ _ R3).
    simpl for_each. unfold process_entry at 1. simpl fst. simpl snd.
    rewrite (bind_Ok _ _ _ _ _ R4). exact R5. }
  assert (HN : (N - 1 = length pre + length post)%nat).
  { subst N. pose proof (f_equal (@length _) Hsplit) as Hlen.
    unfold variable_list_entries in Hlen.
    rewrite !length_app, !length_map in Hlen. simpl in Hlen. lia. }
  split; [now rewrite Hrun|].
  split; [|split].
  - rewrite Hst, !rows_app, !length_app.
    rewrite (rows_variable_tables _ rest Hrest) by reflexivity.
    rewrite rows_map_other by reflexivity.
    unfold after_event. simpl store. rewrite rows_app, length_app.
    simpl. lia.
  - rewrite Hst, !rows_app, !length_app.
    rewrite (rows_variable_tables _ rest Hrest) by reflexivity.
    rewrite rows_map_other by reflexivity.
    unfold after_event. simpl store. rewrite rows_app, length_app.
    simpl. lia.
  - subst w'. rewrite Hrun. simpl snd. unfold w4 in L5, V5.
    simpl store in L5, V5. split; lia.
Qed.


(** *** The counters never go back *)













End Properties.

(** ** The statements at concrete records *)

(** C2 at the text [{}]: the empty object has no [source]. *)
Lemma C2_absent_discriminator_raises_witness :
  sample_loads "{}" = Some (JObject [])
  /\ Py.lookup "source" [] = None
  /\ parse_object null_columns sample_loads "{}" fresh_world
     = (Raise KeyError,
        mkWorld fresh_parser catalog [mkLog ERROR "Unkown JSON object" []]).
Proof.
  split; [reflexivity|]. split; [reflexivity|].
  exact (C2_absent_discriminator_raises null_columns sample_loads
           "{}" [] fresh_world eq_refl eq_refl).
Defined.

(** C3 as stated fails on a fresh session: the entry [y] of type
    [frobnicator], which the catalog does not hold, stores nothing and yet
    leaves the variable counter at 1 instead of 0. *)
Lemma C3_id_consumed_counterexample :
  let var := var_entry "y" "frobnicator" 0 in
  let w' := snd (process_var null_columns "arg" var fresh_world) in
  in_catalog null_columns (store fresh_world) (JString "frobnicator") = false
  /\ store w' = store fresh_world
  /\ _variable_id (self w') <> _variable_id (self fresh_world).
Proof.
  split; [reflexivity|]. split; [reflexivity|].
  vm_compute. discriminate.
Qed.

Lemma C3_unknown_type_skips_variable_witness :
  let var := var_entry "y" "frobnicator" 0 in
  known null_columns (store fresh_world) (JString "y") = false
  /\ in_catalog null_columns (store fresh_world) (JString "frobnicator")
     = false
  /\ process_var null_columns "arg" var fresh_world
     = (Ok tt,
        mkWorld (variable_id_consumed fresh_parser) catalog
          [ mkLog WARNING "Unkown type: {}" [JString "frobnicator"];
            mkLog WARNING "Ignoring variable: {}" [JString "y"] ]).
Proof.
  split; [reflexivity|]. split; [reflexivity|].
  exact (C3_unknown_type_skips_variable null_columns "arg"
           (var_entry "y" "frobnicator" 0) (JString "y")
           (JString "frobnicator") fresh_world
           eq_refl eq_refl eq_refl eq_refl).
Defined.

(** C6 as stated fails when a name is already known: of the N = 3 entries
    [x], [x], [y], the second names a variable the first has registered and
    the third has a type the catalog does not hold; N - 1 = 2 list entries
    are stored, not N - 1 minus the one already-known name. *)
Lemma C6_known_name_counterexample :
  let w' := snd (_parse_trace null_columns known_and_unknown_record
                   fresh_world) in
  let N := 3%nat in
  let already_known := 1%nat in
  fst (_parse_trace null_columns known_and_unknown_record fresh_world)
  = Ok tt
  /\ variable_rows (store w') = 1%nat
  /\ list_entry_rows (store w') = 2%nat
  /\ list_entry_rows (store w') <> (N - 1 - already_known)%nat.
Proof.
  split; [reflexivity|]. split; [reflexivity|]. split; [reflexivity|].
  vm_compute. discriminate.
Qed.

(** C6, amended, at Scenario A: [x] of type [int], then [y] of type
    [frobnicator]. *)
Lemma C6_unknown_type_isolation_witness :
  let x := var_entry "x" "int" 0 in
  let y := var_entry "y" "frobnicator" 1 in
  let json_object := trace_record [x; y] in
  let w' := snd (_parse_trace null_columns json_object fresh_world) in
  unrecognized null_columns (store fresh_world) y = true
  /\ recognized null_columns (store fresh_world) x = true
  /\ fst (_parse_trace null_columns json_object fresh_world) = Ok tt
  /\ length (rows "mal_execution" (store w'))
     = (length (rows "mal_execution" (store fresh_world)) + 1)%nat
  /\ length (rows "profiler_event" (store w'))
     = (length (rows "profiler_event" (store fresh_world)) + 1)%nat
  /\ list_entry_rows (store w')
     = (list_entry_rows (store fresh_world) + (0 + 2 - 1))%nat
  /\ (variable_rows (store w')
      <= variable_rows (store fresh_world) + (0 + 2 - 1))%nat.
Proof.
  intros x y json_object w'.
  split; [reflexivity|]. split; [reflexivity|].
  refine (C6_unknown_type_isolation null_columns json_object
            [] [] [x; y] [("arg", x)] [] "arg" y "y" fresh_world
            eq_refl eq_refl eq_refl eq_refl eq_refl _ eq_refl eq_refl
            eq_refl _).
  - constructor; [reflexivity | constructor].
  - simpl. intros [H|[]]. discriminate H.
Defined.

Lemma C7_state_enumeration_witness :
  let json_object := trace_record [] in
  let w' := snd (_parse_trace null_columns json_object fresh_world) in
  Py.hashable (Py.get json_object "state") = true
  /\ states_get (Py.get json_object "state") = Ok (JInt 0)
  /\ exists event_row,
       rows "profiler_event" (store w')
       = rows "profiler_event" (store fresh_world) ++ [event_row]
       /\ Py.lookup "execution_state" event_row = Some (JInt 0).
Proof.
  intros json_object w'. split; [reflexivity|].
  exact (C7_state_enumeration null_columns json_object fresh_world eq_refl).
Defined.

(** C8 at Scenario B, with three samples. *)
Lemma C8_heartbeat_fan_out_witness :
  let samples := [JInt 1; JInt 2; JInt 3] in
  let json_object := heartbeat_record samples in
  Py.lookup "cpuload" json_object = Some (JArray samples)
  /\ exists data,
       heartbeat_data json_object = Ok data
       /\ _parse_heartbeat json_object fresh_world
          = (Ok tt,
             mkWorld (heartbeat_id_allocated fresh_parser)
               (catalog
                ++ [("heartbeat", data)]
                ++ map (fun c =>
                          ("cpuload",
                           Dict [ ("heartbeat_id", JInt 1); ("val", c) ]))
                       samples)
               [])
       /\ length (rows "cpuload"
                    (store (snd (_parse_heartbeat json_object fresh_world))))
          = (length (rows "cpuload" catalog) + 3)%nat
       /\ length (rows "heartbeat"
                    (store (snd (_parse_heartbeat json_object fresh_world))))
          = (length (rows "heartbeat" catalog) + 1)%nat.
Proof.
  intros samples json_object. split; [reflexivity|].
  refine (C8_heartbeat_fan_out json_object samples fresh_world _ eq_refl).
  intros k Hk. simpl in Hk.
  repeat (destruct Hk as [<-|Hk]; [reflexivity|]). destruct Hk.
Defined.

Lemma C9_prerequisite_edges_witness :
  let prereqs := [JInt 7; JInt 99] in
  let json_object :=
    [ ("source", JString "trace"); ("state", JString "done");
      ("prereq", JArray prereqs) ] in
  let w' := snd (_parse_trace null_columns json_object fresh_world) in
  Py.get json_object "prereq" = JArray prereqs
  /\ _event_id (self w') = 1
  /\ rows "prerequisite_events" (store w')
     = rows "prerequisite_events" catalog
       ++ map (fun prereq =>
                 [ ("prerequisite_event", prereq);
                   ("consequent_event", JInt (_event_id (self w'))) ])
              prereqs.
Proof.
  intros prereqs json_object w'. split; [reflexivity|].
  exact (C9_prerequisite_edges null_columns json_object prereqs fresh_world
           eq_refl eq_refl).
Defined.

(** C10 at a trace whose one argument entry is [{}]: [var['name']] raises
    the [KeyError] that [parse_object] catches. *)
Lemma C10_only_KeyError_is_caught_witness :
  let json_object :=
    [ ("source", JString "trace"); ("prereq", JArray []);
      ("arg", JArray [JObject []]) ] in
  let w' := snd (_parse_trace null_columns json_object fresh_world) in
  sample_loads nameless_var_text = Some (JObject json_object)
  /\ _parse_trace null_columns json_object fresh_world = (Raise KeyError, w')
  /\ parse_object null_columns sample_loads nameless_var_text fresh_world
     = (Ok tt,
        mkWorld (self w') (store w')
          (logged w' ++
           [mkLog ERROR "Unkown JSON object kind: %s" [JString "trace"]])).
Proof.
  intros json_object w'. split; [reflexivity|]. split; [reflexivity|].
  exact (C10_only_KeyError_is_caught null_columns sample_loads
           nameless_var_text json_object "trace" KeyError fresh_world w'
           eq_refl eq_refl (or_introl (conj eq_refl eq_refl))).
Defined.

(** ** Further runs *)

(** A text that does not decode is logged three times and dropped. *)
Example malformed_text_dropped :
  parse_object null_columns sample_loads "{" fresh_world
  = (Ok tt,
     mkWorld fresh_parser catalog
       [ mkLog WARNING "W001: Cannot parse object" [];
         mkLog WARNING "{" [];
         mkLog WARNING "Decoder reports %s" [JString "{"] ]).
Proof. reflexivity. Qed.

(** The text [[]] decodes to a list, which has no [get]. *)
Example not_an_object_raises :
  parse_object null_columns sample_loads "[]" fresh_world
  = (Raise AttributeError, fresh_world).
Proof. reflexivity. Qed.

(** A trace without [prereq]: iterating [None] raises a [TypeError] that
    [parse_object] lets through, after the Execution and the Event row. *)
Example absent_prereq_propagates :
  let r := parse_object null_columns sample_loads bare_trace_text
             fresh_world in
  fst r = Raise TypeError
  /\ map fst (store (snd r))
     = ["mal_type"; "mal_type"; "mal_execution"; "profiler_event"].
Proof. split; reflexivity. Qed.

(** Scenario A: [x] of type [int] and [y] of type [frobnicator]. *)
Example scenario_A :
  let r := _parse_trace null_columns
             (trace_record [ var_entry "x" "int" 0;
                             var_entry "y" "frobnicator" 1 ])
             fresh_world in
  fst r = Ok tt
  /\ self (snd r) = mkParser 1 0 1 2 JNull
  /\ map fst (store (snd r))
     = [ "mal_type"; "mal_type"; "mal_execution"; "profiler_event";
         "mal_variable"; "argument_variable_list" ]
  /\ referenced_ids (store (snd r)) = [JInt 1].
Proof. repeat split; reflexivity. Qed.

(** The same name twice, on a store that reads NULL from the column the
    Variable row did not carry. *)
Example twice_on_null_store :
  referenced_ids
    (store (snd (_parse_trace null_columns twice_record fresh_world)))
  = [JInt 1; JNull].
Proof. reflexivity. Qed.

(** The same on a store that numbers the rows itself: the ids agree as long
    as no variable has failed before, and differ afterwards. *)
Example twice_on_serial_store :
  referenced_ids
    (store (snd (_parse_trace serial_columns twice_record fresh_world)))
  = [JInt 1; JInt 1]
  /\ referenced_ids
       (store (snd (_parse_trace serial_columns twice_after_failure_record
                      fresh_world)))
     = [JInt 2; JInt 1].
Proof. split; reflexivity. Qed.

(** ** Beyond single rows: what a record does to the session *)

Lemma extends_refl P w : extends P w w.
Proof. exists []. split; [now rewrite app_nil_r | constructor]. Qed.

Lemma extends_trans P w1 w2 w3 :
  extends P w1 w2 -> extends P w2 w3 -> extends P w1 w3.
Proof.
  intros [r1 [S1 F1]] [r2 [S2 F2]]. exists (r1 ++ r2). split.
  - now rewrite S2, S1, app_assoc.
  - apply Forall_app. now split.
Qed.

Lemma extending_bind P {A B} (m : M A) (k : A -> M B) :
  extending P m -> (forall a, extending P (k a)) -> extending P (bind m k).
Proof.
  intros Hm Hk w. unfold bind. specialize (Hm w).
  destruct (m w) as [[a|e] w1]; simpl in *; [|exact Hm].
  eapply extends_trans; [exact Hm | apply Hk].
Qed.

Lemma extending_for_each P {A} (l : list A) (body : A -> M unit) :
  (forall x, extending P (body x)) -> extending P (for_each l body).
Proof.
  intros Hb. induction l as [|x l IH]; simpl.
  - intros w. apply extends_refl.
  - apply extending_bind; [apply Hb | intros _; exact IH].
Qed.

Lemma extending_same_store P {A} (m : M A) :
  (forall w, store (snd (m w)) = store w) -> extending P m.
Proof.
  intros H w. exists []. split; [now rewrite app_nil_r, H | constructor].
Qed.

Lemma extending_insert (P : string * payload -> Prop) tbl data :
  P (tbl, data) -> extending P (mdbl_insert tbl data).
Proof.
  intros HP w. exists [(tbl, data)]. split; [reflexivity | now constructor].
Qed.

Lemma extending_try P (body handler : M unit) :
  extending P body -> extending P handler ->
  extending P (try_except_KeyError body handler).
Proof.
  intros Hb Hh w. unfold try_except_KeyError. specialize (Hb w).
  destruct (body w) as [[[]|[]] w1]; simpl in *; try exact Hb.
  eapply extends_trans; [exact Hb | apply Hh].
Qed.

Lemma variable_table_parser_table e : variable_table e -> parser_table e.
Proof.
  unfold parser_table, parser_tables.
  intros [H|[H|H]]; rewrite H; simpl; tauto.
Qed.

Lemma rows_others tbl (rest : database) :
  Forall (fun e => String.eqb (fst e) tbl = false) rest ->
  rows tbl rest = [].
Proof. intros H. unfold rows. now rewrite (table_others _ _ H). Qed.

Ltac same_store := apply extending_same_store; intros; reflexivity.

Ltac parser_row := unfold parser_table, parser_tables; simpl; tauto.

Section Session.

Variable absent : string -> string -> database -> dict -> value.
Variable json_loads : string -> option value.

Lemma extending_var_lists json_object :
  extending parser_table
    (for_each ["ret"; "arg"] (process_var_list absent json_object)).
Proof.
  intros w. destruct (growing_var_lists absent json_object w)
    as [[rest [Hs Hall]] _].
  exists rest. split; [exact Hs|].
  eapply Forall_impl; [|exact Hall]. apply variable_table_parser_table.
Qed.

Lemma extending_parse_trace json_object :
  extending parser_table (_parse_trace absent json_object).
Proof.
  unfold _parse_trace.
  apply extending_bind; [same_store|]. intros _.
  apply extending_bind; [same_store|]. intros _.
  apply extending_bind; [same_store|]. intros p.
  apply extending_bind; [apply extending_insert; parser_row|]. intros _.
  apply extending_bind; [same_store|]. intros exec_state.
  apply extending_bind; [same_store|]. intros p'.
  apply extending_bind; [apply extending_insert; parser_row|]. intros _.
  apply extending_bind; [same_store|]. intros prereqs.
  apply extending_bind.
  - apply extending_for_each. intros prereq.
    apply extending_bind; [same_store|]. intros p''.
    apply extending_insert. parser_row.
  - intros _. apply extending_var_lists.
Qed.

Lemma extending_parse_heartbeat json_object :
  extending parser_table (_parse_heartbeat json_object).
Proof.
  unfold _parse_heartbeat.
  apply extending_bind; [same_store|]. intros _.
  apply extending_bind; [same_store|]. intros data.
  apply extending_bind; [apply extending_insert; parser_row|]. intros _.
  apply extending_bind; [same_store|]. intros cpuload.
  apply extending_bind; [same_store|]. intros samples.
  apply extending_for_each. intros c.
  apply extending_bind; [same_store|]. intros p.
  apply extending_insert. parser_row.
Qed.

Lemma extending_parse_object json_string :
  extending parser_table (parse_object absent json_loads json_string).
Proof.
  unfold parse_object. destruct (json_loads json_string) as [json_object|].
  - apply extending_bind; [same_store|]. intros source.
    assert (Hd : extending parser_table
                   (try_except_KeyError
                      (dispatcher absent source (dict_of json_object))
                      (v <- lift (Py.subscript json_object "source") ;;
                       LOGGER ERROR "Unkown JSON object kind: %s" [v] ;;
                       ret tt))).
    { apply extending_try.
      - unfold dispatcher. destruct source; try same_store.
        destruct (String.eqb s "trace"); [apply extending_parse_trace|].
        destruct (String.eqb s "heartbeat");
          [apply extending_parse_heartbeat | same_store].
      - apply extending_bind; [same_store|]. intros v.
        apply extending_bind; [same_store|]. intros _. same_store. }
    destruct source; try exact Hd.
    apply extending_bind; [same_store|]. intros _.
    apply extending_bind; [same_store|]. intros v.
    apply extending_bind; [same_store|]. intros _. same_store.
  - repeat (apply extending_bind; [same_store|]; intros _). same_store.
Qed.

(** X1. Whatever the text and however [parse_object] is left, the store
    afterwards is the store before followed by new rows, all of them in the
    eight tables the parser writes to: no row is removed, changed or moved. *)
Theorem parse_object_only_appends (json_string : string) (w : world) :
  exists rest,
    store (snd (parse_object absent json_loads json_string w))
    = store w ++ rest
    /\ Forall (fun e => In (fst e) parser_tables) rest.
Proof. exact (extending_parse_object json_string w). Qed.

(** X2. The type catalog is read only: after any text, by return or by
    exception, a type name resolves to the same type ids as before. *)
Theorem parse_object_keeps_catalog (json_string : string) (ty : value)
        (w : world) :
  select absent "type_id" "mal_type" (Some ty)
    (store (snd (parse_object absent json_loads json_string w)))
  = select absent "type_id" "mal_type" (Some ty) (store w).
Proof.
  destruct (extending_parse_object json_string w) as [rest [Hs Hall]].
  rewrite Hs. apply select_app_others.
  eapply Forall_impl; [|exact Hall]. intros e He.
  unfold parser_table, parser_tables in He. simpl in He.
  repeat (destruct He as [<-|He]; [reflexivity|]). destruct He.
Qed.


(** *** What a record costs, whatever becomes of it *)

Lemma parse_trace_raise_state json_object e w :
  states_get (Py.get json_object "state") = Raise e ->
  _parse_trace absent json_object w
  = (Raise e,
     mkWorld (trace_ids_allocated (self w))
       (store w ++
        [("mal_execution",
          Dict (execution_data (trace_ids_allocated (self w)) json_object))])
       (logged w)).
Proof.
  intros Hs. unfold _parse_trace.
  unfold incr_execution_id, incr_event_id.
  rewrite !run_update_self, run_get_self, run_insert.
  cbn [self store logged].
  unfold bind at 1. unfold lift at 1. rewrite Hs. reflexivity.
Qed.

(** However [_parse_trace] is left, the store has gained the Execution row
    first and then rows of the other tables of a trace, and the counters
    stand as lines 26-27 set them, the variable counter apart. *)
Lemma parse_trace_effect json_object w :
  let w' := snd (_parse_trace absent json_object w) in
  (exists rest,
      store w'
      = store w
        ++ ("mal_execution",
            Dict (execution_data (trace_ids_allocated (self w)) json_object))
           :: rest
      /\ Forall (fun e => String.eqb (fst e) "mal_execution" = false) rest)
  /\ _execution_id (self w') = _execution_id (self w) + 1
  /\ _event_id (self w') = _event_id (self w) + 1
  /\ _heartbeat_id (self w') = _heartbeat_id (self w)
  /\ _variable_id (self w) <= _variable_id (self w').
Proof.
  intros w'. subst w'.
  destruct (states_get (Py.get json_object "state")) as [st|e] eqn:Hs.
  - destruct (Py.iter (Py.get json_object "prereq")) as [prereqs|e] eqn:Hp.
    + rewrite (parse_trace_unfold absent _ _ _ w Hs Hp).
      rewrite (bind_Ok _ _ _ _ _ (prerequisite_loop_run prereqs _)).
      match goal with |- context [for_each _ _ ?w2] => set (w2' := w2) end.
      destruct (growing_var_lists absent json_object w2')
        as [[rest [Hst Hall]] [He [Hx [Hh Hv]]]].
      rewrite Hst, He, Hx, Hh. subst w2'. simpl. split.
      * exists (("profiler_event",
                 Dict (event_data (trace_ids_allocated (self w)) st
                         json_object))
                :: map (fun prereq =>
                          ("prerequisite_events",
                           Dict (prerequisite_data
                                   (trace_ids_allocated (self w)) prereq)))
                       prereqs
                ++ rest).
        split; [rewrite <- !app_assoc; reflexivity|].
        constructor; [reflexivity|]. apply Forall_app. split.
        -- apply Forall_forall. intros x Hx'. apply in_map_iff in Hx'.
           destruct Hx' as [y [<- _]]. reflexivity.
        -- eapply Forall_impl; [|exact Hall]. intros x Hx'.
           now apply variable_table_other.
      * simpl in Hv. repeat split; lia.
    + rewrite (parse_trace_raise absent _ _ _ w Hs Hp).
      unfold after_event. simpl. split.
      * exists [("profiler_event",
                 Dict (event_data (trace_ids_allocated (self w)) st
                         json_object))].
        split; [reflexivity|].
        constructor; [reflexivity | constructor].
      * repeat split; lia.
  - rewrite (parse_trace_raise_state _ _ w Hs). simpl. split.
    + exists []. split; [reflexivity | constructor].
    + repeat split; lia.
Qed.

(** X3. A trace record, whatever it holds and whether [_parse_trace]
    returns or raises, consumes exactly one execution id and one event id,
    leaves the heartbeat counter alone, does not lower the variable counter,
    and stores exactly one Execution row, which carries the new execution
    id. *)
Theorem parse_trace_consumes_ids (json_object : dict) (w : world) :
  let w' := snd (_parse_trace absent json_object w) in
  _execution_id (self w') = _execution_id (self w) + 1
  /\ _event_id (self w') = _event_id (self w) + 1
  /\ _heartbeat_id (self w') = _heartbeat_id (self w)
  /\ _variable_id (self w) <= _variable_id (self w')
  /\ rows "mal_execution" (store w')
     = rows "mal_execution" (store w)
       ++ [ [ ("execution_id", JInt (_execution_id (self w')));
              ("server_session", Py.get json_object "session");
              ("tag", Py.get json_object "tag") ] ].
Proof.
  intros w'.
  destruct (parse_trace_effect json_object w)
    as [[rest [Hst Hall]] [Hx [He [Hh Hv]]]].
  fold w' in Hst, Hx, He, Hh, Hv.
  repeat (split; [assumption|]).
  rewrite Hst, Hx.
  change (?a :: rest) with ([a] ++ rest). rewrite !rows_app.
  rewrite (rows_others _ _ Hall). reflexivity.
Qed.

Lemma parse_heartbeat_effect json_object w :
  let w' := snd (_parse_heartbeat json_object w) in
  self w' = heartbeat_id_allocated (self w)
  /\ exists rest,
       store w' = store w ++ rest
       /\ Forall (fun e => fst e = "heartbeat" \/ fst e = "cpuload") rest
       /\ (length (rows "heartbeat" rest) <= 1)%nat.
Proof.
  intros w'. subst w'. unfold _parse_heartbeat.
  unfold incr_heartbeat_id. rewrite run_update_self.
  destruct (heartbeat_data json_object) as [data|e].
  - rewrite run_lift, run_insert. cbn [self store logged].
    destruct (Py.item json_object "cpuload") as [cpuload|e].
    + rewrite run_lift.
      destruct (Py.iter cpuload) as [samples|e].
      * rewrite run_lift, cpuload_loop_run. simpl. split; [reflexivity|].
        eexists. split; [rewrite <- app_assoc; reflexivity|]. split.
        -- constructor; [now left|]. apply Forall_forall.
           intros x Hx. apply in_map_iff in Hx.
           destruct Hx as [y [<- _]]. now right.
        -- change (?a :: map ?f samples) with ([a] ++ map f samples).
           rewrite rows_app, length_app.
           rewrite (rows_map_other "heartbeat" "cpuload"
                      (fun c => Dict (cpuload_data
                                        (heartbeat_id_allocated (self w)) c)))
             by reflexivity.
           simpl. lia.
      * rewrite run_raise. simpl. split; [reflexivity|].
        eexists. split; [reflexivity|]. split.
        -- constructor; [now left | constructor].
        -- simpl. lia.
    + rewrite run_raise. simpl. split; [reflexivity|].
      eexists. split; [reflexivity|]. split.
      * constructor; [now left | constructor].
      * simpl. lia.
  - rewrite run_raise. simpl. split; [reflexivity|].
    exists []. split; [now rewrite app_nil_r|]. split; [constructor|].
    simpl. lia.
Qed.

(** X4. A heartbeat record, whatever it holds and whether
    [_parse_heartbeat] returns or raises, consumes exactly one heartbeat id
    and leaves the three counters of the traces alone; it stores at most one
    row of [heartbeat] and otherwise only rows of [cpuload]. *)
Theorem parse_heartbeat_consumes_id (json_object : dict) (w : world) :
  let w' := snd (_parse_heartbeat json_object w) in
  _heartbeat_id (self w') = _heartbeat_id (self w) + 1
  /\ _execution_id (self w') = _execution_id (self w)
  /\ _event_id (self w') = _event_id (self w)
  /\ _variable_id (self w') = _variable_id (self w)
  /\ exists rest,
       store w' = store w ++ rest
       /\ Forall (fun e => fst e = "heartbeat" \/ fst e = "cpuload") rest
       /\ (length (rows "heartbeat" rest) <= 1)%nat.
Proof.
  intros w'. destruct (parse_heartbeat_effect json_object w) as [Hs Hr].
  fold w' in Hs, Hr. rewrite Hs. simpl. repeat (split; [reflexivity|]).
  exact Hr.
Qed.

(** X5. A trace record whose state is a list or a dict: hashing it raises
    a [TypeError] when the Execution row is already stored and both ids are
    taken; no Event row follows, and nothing is undone. *)
Theorem unhashable_state_leaves_execution_row (json_object : dict)
        (w : world) :
  Py.hashable (Py.get json_object "state") = false ->
  _parse_trace absent json_object w
  = (Raise TypeError,
     mkWorld (trace_ids_allocated (self w))
       (store w ++
        [("mal_execution",
          Dict [ ("execution_id", JInt (_execution_id (self w) + 1));
                 ("server_session", Py.get json_object "session");
                 ("tag", Py.get json_object "tag") ])])
       (logged w)).
Proof.
  intros Hh.
  exact (parse_trace_raise_state json_object _ w
           (states_get_unhashable _ Hh)).
Qed.


(** *** Records that are dropped *)

(** X6. A text that decodes to an object whose [source] is none of
    [None], ['trace'], ['heartbeat'] and can be hashed: [parse_object] logs
    it as an unknown kind and returns normally, with the parser and the
    store exactly as they were. *)
Theorem unknown_kind_is_dropped (json_string : string) (json_object : dict)
        (source : value) (w : world) :
  json_loads json_string = Some (JObject json_object) ->
  Py.lookup "source" json_object = Some source ->
  Py.hashable source = true ->
  source <> JNull ->
  source <> JString "trace" ->
  source <> JString "heartbeat" ->
  parse_object absent json_loads json_string w
  = (Ok tt,
     mkWorld (self w) (store w)
       (logged w ++ [mkLog ERROR "Unkown JSON object kind: %s" [source]])).
Proof.
  intros Hl Hs Hh Hn Ht Hb. unfold parse_object. rewrite Hl.
  simpl Py.attr_get. rewrite run_lift. unfold Py.get. rewrite Hs.
  assert (Hd : dispatcher absent source json_object w = (Raise KeyError, w)).
  { unfold dispatcher. destruct source; try discriminate; try reflexivity.
    destruct (String.eqb s "trace") eqn:E1.
    { apply String.eqb_eq in E1. subst s. now elim Ht. }
    destruct (String.eqb s "heartbeat") eqn:E2.
    { apply String.eqb_eq in E2. subst s. now elim Hb. }
    reflexivity. }
  assert (Hrun : try_except_KeyError
                   (dispatcher absent source (dict_of (JObject json_object)))
                   (v <- lift (Py.subscript (JObject json_object) "source") ;;
                    LOGGER ERROR "Unkown JSON object kind: %s" [v] ;; ret tt)
                   w
                 = (Ok tt,
                    mkWorld (self w) (store w)
                      (logged w ++
                       [mkLog ERROR "Unkown JSON object kind: %s" [source]]))).
  { unfold try_except_KeyError. simpl dict_of. rewrite Hd.
    simpl Py.subscript. unfold Py.item. rewrite Hs. reflexivity. }
  destruct source; try exact Hrun. now elim Hn.
Qed.

(** X7. A text that [json.loads] rejects is dropped: three warnings, the
    second being the text itself, and the parser and the store exactly as
    they were. *)
Theorem malformed_text_is_dropped (json_string : string) (w : world) :
  json_loads json_string = None ->
  parse_object absent json_loads json_string w
  = (Ok tt,
     mkWorld (self w) (store w)
       (logged w ++
        [ mkLog WARNING "W001: Cannot parse object" [];
          mkLog WARNING json_string [];
          mkLog WARNING "Decoder reports %s" [JString json_string] ])).
Proof. apply parse_object_malformed. Qed.

(** X10. A heartbeat record without [cpuload] whose scalar fields can be
    hashed: the [KeyError] of [json_object['cpuload']] comes after the
    heartbeat data is stored, and [parse_object] catches it, so the text is
    reported as an unknown kind although its heartbeat is stored, without
    samples, and its id is consumed. *)
Theorem heartbeat_without_cpuload (json_string : string) (json_object : dict)
        (w : world) :
  json_loads json_string = Some (JObject json_object) ->
  Py.lookup "source" json_object = Some (JString "heartbeat") ->
  (forall k, In k data_keys -> Py.hashable (Py.get json_object k) = true) ->
  Py.lookup "cpuload" json_object = None ->
  parse_object absent json_loads json_string w
  = (Ok tt,
     mkWorld (heartbeat_id_allocated (self w))
       (store w ++
        [("heartbeat",
          TupleSet (map (fun k => (k, Py.get json_object k)) data_keys))])
       (logged w ++
        [mkLog ERROR "Unkown JSON object kind: %s" [JString "heartbeat"]])).
Proof.
  intros Hl Hs Hh Hc.
  rewrite (parse_object_dispatch absent json_loads _ _ _ w Hl Hs).
  unfold try_except_KeyError. simpl dispatcher.
  unfold _parse_heartbeat, incr_heartbeat_id. rewrite run_update_self.
  rewrite (heartbeat_data_hashable _ Hh), run_lift, run_insert.
  unfold Py.item. rewrite Hc, run_raise. reflexivity.
Qed.

(** *** Variables and lists *)

Lemma select_first_row col (before after : database) row n v :
  known absent before (JString n) = false ->
  Py.lookup "name" row = Some (JString n) ->
  Py.lookup col row = Some v ->
  exists ids,
    select absent col "mal_variable" (Some (JString n))
      (before ++ ("mal_variable", Dict row) :: after)
    = v :: ids.
Proof.
  intros Hk Hn Hv. rewrite select_app.
  assert (Hb : select absent col "mal_variable" (Some (JString n)) before
               = []).
  { unfold known in Hk. unfold select in *.
    revert Hk. generalize (@nil (string * payload)).
    induction before as [|[t p] before IH]; intros pre Hk; [reflexivity|].
    simpl in *.
    destruct (String.eqb t "mal_variable"
              && sql_eq (column absent "mal_variable" "name" pre (row_of p))
                        (JString n)); [discriminate|].
    simpl in *. now apply IH. }
  rewrite Hb. simpl. unfold column at 1. simpl row_of. rewrite Hn.
  simpl. rewrite String.eqb_refl. simpl.
  unfold column at 1. rewrite Hv. eexists. reflexivity.
Qed.

(** X8. Registry round trip: when the first row of [mal_variable] with the
    name of an entry carries a [variable_id], a reference to that name
    stores one list entry with exactly that id, in the table of its field;
    no Variable row is stored, no id is consumed and the type of the entry
    is not looked at. *)
Theorem known_name_reuses_stored_id (field tbl : string) (var : value)
        (n : string) (row : dict) (v : value) (before after : database)
        (w : world) :
  entry_name var = Some n ->
  var_list_tables field = Ok tbl ->
  store w = before ++ ("mal_variable", Dict row) :: after ->
  known absent before (JString n) = false ->
  Py.lookup "name" row = Some (JString n) ->
  Py.lookup "variable_id" row = Some v ->
  process_var absent field var w
  = (Ok tt,
     mkWorld (self w)
       (store w ++
        [(tbl,
          Dict [ ("variable_list_index", var_get var "index");
                 ("event_id", JInt (_event_id (self w)));
                 ("variable_id", v) ])])
       (logged w)).
Proof.
  intros Hn Ht Hst Hk Hrn Hrv.
  destruct (select_first_row "variable_id" before after row n v Hk Hrn Hrv)
    as [ids Hsel].
  unfold process_var.
  rewrite (entry_name_subscript _ _ Hn), run_lift.
  rewrite <- Hst in Hsel.
  unfold bind at 1. unfold stmt_execute at 1. rewrite Hsel.
  unfold insert_var_list_entry. rewrite run_get_self, Ht, run_lift.
  reflexivity.
Qed.

(** X9. A trace record whose state is a scalar or absent, whose [prereq] is
    a list and whose [ret] and [arg] are each absent or an empty list
    returns normally and stores exactly its Execution row, its Event row and
    one edge per prerequisite, in this order; the variable counter and the
    log are untouched. *)
Theorem trace_without_variables (json_object : dict) (prereqs : list value)
        (w : world) :
  Py.hashable (Py.get json_object "state") = true ->
  Py.get json_object "prereq" = JArray prereqs ->
  Py.get_default json_object "ret" (JArray []) = JArray [] ->
  Py.get_default json_object "arg" (JArray []) = JArray [] ->
  _parse_trace absent json_object w
  = (Ok tt,
     mkWorld (trace_ids_allocated (self w))
       (store w
        ++ [ ("mal_execution",
              Dict (execution_data (trace_ids_allocated (self w))
                      json_object));
             ("profiler_event",
              Dict (event_data (trace_ids_allocated (self w))
                      (state_enumeration (Py.get json_object "state"))
                      json_object)) ]
        ++ map (fun prereq =>
                  ("prerequisite_events",
                   Dict [ ("prerequisite_event", prereq);
                          ("consequent_event",
                           JInt (_event_id (self w) + 1)) ])) prereqs)
       (logged w)).
Proof.
  intros Hh Hp Hr Ha.
  rewrite (parse_trace_entries absent _ _ _ _ w Hh Hp Hr Ha).
  unfold variable_list_entries. simpl for_each.
  unfold ret, after_prerequisites, after_event. simpl.
  now rewrite <- app_assoc.
Qed.


(** *** The limits the manager reports *)

Lemma sql_max_snoc (vs : list value) (v : value) :
  sql_max (vs ++ [v])
  = match v, sql_max vs with
    | JInt n, JInt m => JInt (Z.max m n)
    | JInt n, _ => JInt n
    | _, acc => acc
    end.
Proof.
  unfold sql_max. rewrite fold_left_app. simpl.
  destruct v; try reflexivity.
  all: now destruct (fold_left _ vs JNull).
Qed.

Lemma sql_max_spec (vs : list value) :
  match sql_max vs with
  | JNull => forall n, ~ In (JInt n) vs
  | JInt m => In (JInt m) vs /\ forall n, In (JInt n) vs -> n <= m
  | _ => False
  end.
Proof.
  induction vs as [|v vs IH] using rev_ind.
  - simpl. intros n H. exact H.
  - rewrite sql_max_snoc.
    destruct v as [| b | n | f | s | l | kv];
      try (destruct (sql_max vs) as [| | m | | | |]; try contradiction;
           [ intros n H; apply in_app_or in H; destruct H as [H|[H|[]]];
             [exact (IH n H) | discriminate H]
           | destruct IH as [Hin Hmax]; split;
             [ apply in_or_app; now left
             | intros n H; apply in_app_or in H; destruct H as [H|[H|[]]];
               [exact (Hmax n H) | discriminate H] ] ]).
    destruct (sql_max vs) as [| | m | | | |]; try contradiction.
    + split; [apply in_or_app; right; now left|].
      intros k H. apply in_app_or in H. destruct H as [H|[H|[]]].
      * now elim (IH k).
      * injection H as <-. lia.
    + destruct IH as [Hin Hmax]. split.
      * destruct (Z.max_spec m n) as [[_ ->]|[_ ->]];
          apply in_or_app; [right; now left | now left].
      * intros k H. apply in_app_or in H. destruct H as [H|[H|[]]].
        -- specialize (Hmax k H). lia.
        -- injection H as <-. lia.
Qed.

Lemma scan_contains tbl col (rest : database) :
  forall before row v,
    In (tbl, Dict row) rest ->
    Py.lookup col row = Some v ->
    In v (scan absent tbl col None before rest).
Proof.
  induction rest as [|[t p] rest IH]; intros before row v Hin Hv.
  - destruct Hin.
  - simpl. apply in_or_app. destruct Hin as [Heq|Hin].
    + left. injection Heq as -> ->. rewrite String.eqb_refl. simpl.
      left. unfold column. simpl. now rewrite Hv.
    + right. now apply (IH _ row v).
Qed.

(** One limit: [(x[0][0] or 0)] over [SELECT MAX(col) FROM tbl]. *)
Lemma limit_spec col tbl (db : database) :
  exists a,
    Py.or_ (first_cell (execute_query_max absent col tbl db)) (JInt 0)
    = JInt a
    /\ (forall row n,
           In (tbl, Dict row) db ->
           Py.lookup col row = Some (JInt n) -> n <= a)
    /\ ((forall n, ~ In (JInt n) (select absent col tbl None db)) -> a = 0).
Proof.
  unfold execute_query_max, first_cell.
  pose proof (sql_max_spec (select absent col tbl None db)) as H.
  destruct (sql_max (select absent col tbl None db))
    as [| | m | | | |]; try contradiction.
  - exists 0. split; [reflexivity|]. split; [|reflexivity].
    intros row n Hin Hv. elim (H n). now apply (scan_contains _ _ _ _ row).
  - destruct H as [Hin Hmax]. exists m. split.
    + unfold Py.or_. simpl. destruct (Z.eqb_spec m 0) as [->|]; reflexivity.
    + split.
      * intros row n Hr Hv. apply Hmax.
        now apply (scan_contains _ _ _ _ row).
      * intros Hnone. now elim (Hnone m).
Qed.

(** X11. [get_limits] returns four integers, never null, and each is an
    upper bound of the ids of its kind that the rows of its table carry:
    no execution, event, variable or heartbeat row holds an integer id above
    the limit reported for it. *)
Theorem get_limits_are_upper_bounds (db : database) :
  exists a b c d,
    get_limits absent db = [JInt a; JInt b; JInt c; JInt d]
    /\ (forall row n,
           In ("mal_execution", Dict row) db ->
           Py.lookup "execution_id" row = Some (JInt n) -> n <= a)
    /\ (forall row n,
           In ("profiler_event", Dict row) db ->
           Py.lookup "event_id" row = Some (JInt n) -> n <= b)
    /\ (forall row n,
           In ("mal_variable", Dict row) db ->
           Py.lookup "variable_id" row = Some (JInt n) -> n <= c)
    /\ (forall row n,
           In ("heartbeat", Dict row) db ->
           Py.lookup "heartbeat_id" row = Some (JInt n) -> n <= d).
Proof.
  destruct (limit_spec "execution_id" "mal_execution" db) as [a [Ha [Ba _]]].
  destruct (limit_spec "event_id" "profiler_event" db) as [b [Hb [Bb _]]].
  destruct (limit_spec "variable_id" "mal_variable" db) as [c [Hc [Bc _]]].
  destruct (limit_spec "heartbeat_id" "heartbeat" db) as [d [Hd [Bd _]]].
  exists a, b, c, d. split; [|now repeat split].
  unfold get_limits. cbn [map fst snd]. now rewrite Ha, Hb, Hc, Hd.
Qed.

(** X12. From a parser whose execution counter is not negative, the
    execution id a trace record stores is seen by [get_limits] whatever
    becomes of the record: the execution limit afterwards is the larger of
    the limit before and the id just allocated. *)
Theorem execution_limit_follows_trace (json_object : dict) (w : world) :
  let w' := snd (_parse_trace absent json_object w) in
  0 <= _execution_id (self w) ->
  exists a,
    execution_limit absent (store w) = JInt a
    /\ execution_limit absent (store w')
       = JInt (Z.max a (_execution_id (self w) + 1)).
Proof.
  intros w' Hpos.
  destruct (parse_trace_effect json_object w) as [[rest [Hst Hall]] _].
  fold w' in Hst. unfold execution_limit, get_limits. simpl hd.
  unfold execute_query_max, first_cell. rewrite Hst.
  change (?x :: rest) with ([x] ++ rest). rewrite app_assoc.
  rewrite (select_app_others absent _ _ _ _ rest Hall).
  rewrite select_app. simpl scan.
  unfold column at 1. simpl Py.lookup. rewrite sql_max_snoc.
  pose proof (sql_max_spec
                (select absent "execution_id" "mal_execution" None (store w)))
    as H.
  destruct (sql_max (select absent "execution_id" "mal_execution" None
                       (store w))) as [| | m | | | |]; try contradiction.
  - exists 0. split; [reflexivity|]. unfold Py.or_. simpl.
    destruct (Z.eqb_spec (_execution_id (self w) + 1) 0) as [E|E]; simpl.
    + rewrite E. reflexivity.
    + f_equal. lia.
  - exists m. split.
    + unfold Py.or_. simpl. destruct (Z.eqb_spec m 0) as [->|]; reflexivity.
    + unfold Py.or_. simpl.
      destruct (Z.eqb_spec (Z.max m (_execution_id (self w) + 1)) 0) as [E|E];
        simpl; [now rewrite E | reflexivity].
Qed.

End Session.

(** ** The connection manager: scripts *)

Lemma endswith_nonempty s c : Manager.endswith s c = true -> s <> EmptyString.
Proof. intros H E. subst s. discriminate H. Qed.

Lemma endswith_app a b c :
  Manager.endswith b c = true ->
  Manager.endswith (a ++ b)%string c = true.
Proof.
  intros Hb. induction a as [|x a IH]; [exact Hb|].
  simpl. destruct (a ++ b)%string as [|y r] eqn:E.
  - destruct a; [|discriminate E]. simpl in E. subst b. discriminate Hb.
  - exact IH.
Qed.

Lemma endswith_join sep (l : list string) x c :
  Manager.endswith x c = true ->
  Manager.endswith (Manager.join sep (l ++ [x])) c = true.
Proof.
  intros Hx. unfold Manager.join. induction l as [|a l IH]; [exact Hx|].
  simpl. destruct (l ++ [x]) as [|y r] eqn:E.
  - now destruct l.
  - apply endswith_app, endswith_app. exact IH.
Qed.

Lemma statements_terminated (sql_in : list string) :
  forall stmt,
    Forall (fun st => Manager.endswith st ";" = true)
           (Manager.statements sql_in stmt).
Proof.
  induction sql_in as [|ln rest IH]; intros stmt; simpl; [constructor|].
  destruct (Manager.skipped ln); [apply IH|].
  destruct (Manager.endswith (Manager.strip ln) ";") eqn:E; [|apply IH].
  constructor; [now apply endswith_join | apply IH].
Qed.

Lemma statements_count (sql_in : list string) :
  forall stmt,
    length (Manager.statements sql_in stmt)
    = length (filter (fun ln => negb (Manager.skipped ln)
                                && Manager.endswith (Manager.strip ln) ";")
                     sql_in).
Proof.
  induction sql_in as [|ln rest IH]; intros stmt; simpl; [reflexivity|].
  destruct (Manager.skipped ln); simpl; [apply IH|].
  destruct (Manager.endswith (Manager.strip ln) ";"); simpl;
    [f_equal|]; apply IH.
Qed.

Lemma statements_app (l1 l2 : list string) :
  forall stmt,
    Manager.statements (l1 ++ l2) stmt
    = Manager.statements l1 stmt
      ++ Manager.statements l2 (Manager.pending l1 stmt)
    /\ Manager.pending (l1 ++ l2) stmt
       = Manager.pending l2 (Manager.pending l1 stmt).
Proof.
  induction l1 as [|ln rest IH]; intros stmt; simpl; [now split|].
  destruct (Manager.skipped ln); [apply IH|].
  destruct (Manager.endswith (Manager.strip ln) ";"); [|apply IH].
  destruct (IH []) as [H1 H2]. split; [now rewrite H1 | exact H2].
Qed.

Lemma statements_unterminated (tail : list string) :
  Forall (fun ln => Manager.skipped ln = true
                    \/ Manager.endswith (Manager.strip ln) ";" = false) tail ->
  forall stmt, Manager.statements tail stmt = [].
Proof.
  induction 1 as [|ln tail Hln _ IH]; intros stmt; simpl; [reflexivity|].
  destruct (Manager.skipped ln); [apply IH|].
  destruct Hln as [Hln|Hln]; [discriminate|]. rewrite Hln. apply IH.
Qed.

Lemma statements_filter (sql_in : list string) :
  forall stmt,
    Manager.statements
      (filter (fun ln => negb (Manager.skipped ln)) sql_in) stmt
    = Manager.statements sql_in stmt.
Proof.
  induction sql_in as [|ln rest IH]; intros stmt; simpl; [reflexivity|].
  destruct (Manager.skipped ln) eqn:E; simpl; [apply IH|].
  rewrite E. destruct (Manager.endswith (Manager.strip ln) ";");
    [f_equal|]; apply IH.
Qed.

(** X13. Every statement [execute_sql_script] builds ends with a
    semicolon, and there are as many of them as there are lines that are
    neither comment nor blank and end, once stripped, with a semicolon. *)
Theorem script_statements_are_terminated (sql_in : list string) :
  Forall (fun st => Manager.endswith st ";" = true)
         (Manager.statements sql_in [])
  /\ length (Manager.statements sql_in [])
     = length (filter (fun ln => negb (Manager.skipped ln)
                                 && Manager.endswith (Manager.strip ln) ";")
                      sql_in).
Proof. split; [apply statements_terminated | apply statements_count]. Qed.

(** X14. Scripts compose: the statements of two scripts read one after the
    other are those of the first followed by those of the second, the
    second starting with the lines the first has left unterminated. *)
Theorem script_statements_compose (l1 l2 stmt : list string) :
  Manager.statements (l1 ++ l2) stmt
  = Manager.statements l1 stmt
    ++ Manager.statements l2 (Manager.pending l1 stmt).
Proof. apply statements_app. Qed.

Section Scripts.

Variable conn : Type.
Variable conn_execute : string -> conn -> bool * conn.
Variable data : Type.

Lemma script_loop_runs_statements (sql_in : list string) :
  forall stmt (s : Manager.mstate conn data),
    Manager.script_loop conn_execute sql_in stmt s
    = Manager.run_statements conn_execute
        (Manager.statements sql_in stmt) s.
Proof.
  induction sql_in as [|ln rest IH]; intros stmt s; simpl; [reflexivity|].
  unfold Manager.skipped.
  destruct (String.prefix "--" ln
            || String.eqb (Manager.strip ln) EmptyString); [apply IH|].
  destruct (Manager.endswith (Manager.strip ln) ";"); [|apply IH].
  simpl. destruct (Manager._connection (Manager.this s)) as [c|];
    [|reflexivity].
  destruct (conn_execute _ c) as [[] c']; [apply IH | reflexivity].
Qed.

(** X15. The lines after the last terminated statement, when none of them
    ends with a semicolon, are never handed to the connection and raise
    nothing: the script behaves as if they were not there. *)
Theorem script_drops_unterminated_tail (sql_in tail : list string)
        (s : Manager.mstate conn data) :
  Forall (fun ln => Manager.skipped ln = true
                    \/ Manager.endswith (Manager.strip ln) ";" = false) tail ->
  Manager.execute_sql_script conn_execute (sql_in ++ tail) s
  = Manager.execute_sql_script conn_execute sql_in s.
Proof.
  intros H. unfold Manager.execute_sql_script.
  rewrite !script_loop_runs_statements.
  rewrite (proj1 (statements_app sql_in tail [])).
  rewrite (statements_unterminated tail H). now rewrite app_nil_r.
Qed.

(** X16. Lines that start with [--] and lines that are blank once stripped
    change nothing: a script and the script without them do the same. *)
Theorem script_ignores_comments_and_blanks (sql_in : list string)
        (s : Manager.mstate conn data) :
  Manager.execute_sql_script conn_execute
    (filter (fun ln => negb (Manager.skipped ln)) sql_in) s
  = Manager.execute_sql_script conn_execute sql_in s.
Proof.
  unfold Manager.execute_sql_script.
  rewrite !script_loop_runs_statements. now rewrite statements_filter.
Qed.

Lemma run_statements_failure (pre post : list string) (st : string) :
  forall (s s1 : Manager.mstate conn data) c1 c2,
    Manager.run_statements conn_execute pre s = (Manager.Returned tt, s1) ->
    Manager._connection (Manager.this s1) = Some c1 ->
    conn_execute st c1 = (false, c2) ->
    Manager.run_statements conn_execute (pre ++ st :: post) s
    = (Manager.Raised Manager.MonetDBLiteError,
       Manager.with_connection s1 (Some c2)).
Proof.
  induction pre as [|a pre IH]; intros s s1 c1 c2 Hpre Hc He; simpl in *.
  - injection Hpre as <-. now rewrite Hc, He.
  - destruct (Manager._connection (Manager.this s)) as [c|];
      [|discriminate Hpre].
    destruct (conn_execute a c) as [[] c']; [|discriminate Hpre].
    now apply (IH _ s1 c1).
Qed.

(** X17. [execute_sql_script] leaves at the first statement the connection
    rejects: when the statements before it have been executed and it raises,
    the script raises [monetdblite.Error] with the connection as that
    statement left it, and whatever statements follow are not executed. *)
Theorem script_stops_at_first_failure (sql_in pre post : list string)
        (st : string) (s s1 : Manager.mstate conn data) (c1 c2 : conn) :
  Manager.statements sql_in [] = pre ++ st :: post ->
  Manager.run_statements conn_execute pre s = (Manager.Returned tt, s1) ->
  Manager._connection (Manager.this s1) = Some c1 ->
  conn_execute st c1 = (false, c2) ->
  Manager.execute_sql_script conn_execute sql_in s
  = (Manager.Raised Manager.MonetDBLiteError,
     Manager.with_connection s1 (Some c2)).
Proof.
  intros Hst Hpre Hc He. unfold Manager.execute_sql_script.
  rewrite script_loop_runs_statements, Hst.
  now apply (run_statements_failure pre post st s s1 c1 c2).
Qed.

End Scripts.

(** ** The connection manager: rows as text *)

Lemma string_app_assoc (a b c : string) :
  ((a ++ b) ++ c)%string = (a ++ b ++ c)%string.
Proof. induction a as [|x a IH]; simpl; [reflexivity | now rewrite IH]. Qed.

Lemma string_app_nil_r (a : string) : (a ++ EmptyString)%string = a.
Proof. induction a as [|x a IH]; simpl; [reflexivity | now rewrite IH]. Qed.

Lemma occurrences_app c (a b : string) :
  Manager.occurrences c (a ++ b)%string
  = (Manager.occurrences c a + Manager.occurrences c b)%nat.
Proof. induction a as [|x a IH]; simpl; [reflexivity | rewrite IH; lia]. Qed.

Lemma occurrences_join c sep (l : list string) :
  Manager.occurrences c sep = O ->
  Forall (fun x => Manager.occurrences c x = O) l ->
  Manager.occurrences c (Manager.join sep l) = O.
Proof.
  intros Hsep Hall. unfold Manager.join.
  induction Hall as [|x l Hx Hl IH]; [reflexivity|].
  simpl. destruct l as [|y l]; [exact Hx|].
  rewrite !occurrences_app, Hx, Hsep, IH. reflexivity.
Qed.

Section Csv.

Variable str : value -> string.
Variable mktemp : string.

Lemma csv_fold (rows : list dict) :
  forall acc,
    fold_left (fun csv_lines element =>
                 (csv_lines ++ Manager.csv_line str element)%string)
              rows acc
    = (acc ++ Manager.csv_text str rows)%string.
Proof.
  unfold Manager.csv_text.
  induction rows as [|r rows IH]; intros acc; simpl.
  - now rewrite string_app_nil_r.
  - rewrite IH, (IH (Manager.csv_line str r)). now rewrite string_app_assoc.
Qed.

Lemma csv_text_app (r1 r2 : list dict) :
  Manager.csv_text str (r1 ++ r2)
  = (Manager.csv_text str r1 ++ Manager.csv_text str r2)%string.
Proof.
  unfold Manager.csv_text at 1. rewrite fold_left_app. apply csv_fold.
Qed.

Lemma prepare_csv_text (rows : list dict) :
  rows <> [] ->
  Manager._prepare_csv str mktemp rows
  = Manager.Returned (mktemp, Manager.csv_text str rows).
Proof. destruct rows; [congruence | reflexivity]. Qed.

(** X18. Batches concatenate: the text written for two batches of rows
    handed over as one is the text of the first followed by the text of the
    second; a batch without rows raises [IndexError] and writes nothing. *)
Theorem csv_of_batches_concatenates (r1 r2 : list dict) :
  r1 <> [] -> r2 <> [] ->
  exists t1 t2,
    Manager._prepare_csv str mktemp r1 = Manager.Returned (mktemp, t1)
    /\ Manager._prepare_csv str mktemp r2 = Manager.Returned (mktemp, t2)
    /\ Manager._prepare_csv str mktemp (r1 ++ r2)
       = Manager.Returned (mktemp, (t1 ++ t2)%string)
    /\ Manager._prepare_csv str mktemp []
       = Manager.Raised Manager.IndexError.
Proof.
  intros H1 H2. exists (Manager.csv_text str r1), (Manager.csv_text str r2).
  repeat split; try now apply prepare_csv_text.
  rewrite prepare_csv_text, csv_text_app; [reflexivity|].
  destruct r1; [congruence | discriminate].
Qed.

Lemma csv_line_newlines (element : dict) :
  Forall (fun kv => Manager.occurrences "010" (str (snd kv)) = O) element ->
  Manager.occurrences "010" (Manager.csv_line str element) = 1%nat.
Proof.
  intros H. unfold Manager.csv_line. rewrite occurrences_app.
  rewrite occurrences_join; [reflexivity | reflexivity |].
  apply Forall_forall. intros x Hx. apply in_map_iff in Hx.
  destruct Hx as [kv [<- Hkv]]. exact (proj1 (Forall_forall _ _) H kv Hkv).
Qed.

(** X19. One line per row: when the text of no value holds a line feed,
    the text written has exactly as many line feeds as there are rows, and
    a row of no column is an empty line. *)
Theorem csv_has_one_line_per_row (rows : list dict) :
  rows <> [] ->
  Forall (Forall (fun kv => Manager.occurrences "010" (str (snd kv)) = O))
         rows ->
  exists text,
    Manager._prepare_csv str mktemp rows = Manager.Returned (mktemp, text)
    /\ Manager.occurrences "010" text = length rows.
Proof.
  intros Hne Hall. exists (Manager.csv_text str rows).
  split; [now apply prepare_csv_text|]. clear Hne.
  induction Hall as [|r rows Hr _ IH] using Forall_ind; [reflexivity|].
  change (r :: rows) with ([r] ++ rows). rewrite csv_text_app.
  rewrite occurrences_app, IH. unfold Manager.csv_text. simpl.
  now rewrite (csv_line_newlines r Hr).
Qed.

(** X20. The bar is not escaped: a value whose text is the texts of two
    others joined by a bar is written exactly as those two values, so a row
    of one column and a row of two give the same file. *)
Theorem csv_does_not_escape_the_bar (k k1 k2 : string) (u v w : value) :
  str u = (str v ++ "|" ++ str w)%string ->
  Manager._prepare_csv str mktemp [[(k, u)]]
  = Manager._prepare_csv str mktemp [[(k1, v); (k2, w)]].
Proof.
  intros H. simpl. unfold Manager.csv_line, Manager.join. simpl.
  now rewrite H.
Qed.

End Csv.

(** ** The connection manager: life cycle *)

Section Lifecycle.

Variable absent : string -> string -> database -> dict -> value.
Variable conn : Type.
Variable make_connection : string -> conn.
Variable conn_execute : string -> conn -> bool * conn.
Variable conn_rollback : conn -> conn.
Variable tables_named : string -> conn -> Z.
Variable cursor_query : string -> conn -> option (list (list value)) * conn.
Variable data : Type.
Variable cursor_insert : string -> data -> conn -> bool * conn.
Variable tables_sql : list string.

Lemma check_tables_verdict (tbls : list string) (c : conn)
      (s : Manager.mstate conn data) :
  if forallb (fun tbl => Z.eqb (tables_named tbl c) 1) tbls
  then Manager.check_tables tables_named tbls c s = (Manager.Returned tt, s)
  else exists tbl,
         In tbl tbls
         /\ Manager.check_tables tables_named tbls c s
            = (Manager.Raised Manager.InitializationError,
               Manager.log (Manager.TableNotFound data tbl) s).
Proof.
  induction tbls as [|tbl tbls IH]; simpl; [reflexivity|].
  destruct (Z.eqb (tables_named tbl c) 1); simpl.
  - destruct (forallb _ tbls); [exact IH|].
    destruct IH as [t [Hin Hr]]. exists t. split; [now right | exact Hr].
  - exists tbl. split; [now left | reflexivity].
Qed.

(** X21. Whether the manager initializes depends on the tables alone: once
    the table script has returned or has been rejected by the connection
    (then rolled back, with a warning), [_initialize_tables] returns
    normally exactly when each of the eight tables is found once, and
    raises [InitializationError] otherwise. *)
Theorem initialization_depends_on_tables (s s1 : Manager.mstate conn data)
        (r : Manager.answer unit) (c1 : conn) :
  Manager.execute_sql_script conn_execute tables_sql s = (r, s1) ->
  Manager._connection (Manager.this s1) = Some c1 ->
  r = Manager.Returned tt \/ r = Manager.Raised Manager.MonetDBLiteError ->
  let c2 := match r with
            | Manager.Returned _ => c1
            | Manager.Raised _ => conn_rollback c1
            end in
  fst (Manager._initialize_tables conn_execute conn_rollback tables_named
         tables_sql s)
  = if forallb (fun tbl => Z.eqb (tables_named tbl c2) 1) Manager.tables
    then Manager.Returned tt
    else Manager.Raised Manager.InitializationError.
Proof.
  intros Hs Hc Hr c2. unfold Manager._initialize_tables. rewrite Hs.
  destruct Hr as [-> | ->]; subst c2.
  - rewrite Hc.
    pose proof (check_tables_verdict Manager.tables c1 s1) as H.
    destruct (forallb _ Manager.tables).
    + now rewrite H.
    + destruct H as [t [_ ->]]. reflexivity.
  - rewrite Hc. cbn [Manager.this Manager.with_connection
                      Manager._connection].
    match goal with
    | |- context [Manager.check_tables _ _ _ ?s2] =>
        pose proof (check_tables_verdict Manager.tables (conn_rollback c1) s2)
          as H
    end.
    destruct (forallb _ Manager.tables).
    + now rewrite H.
    + destruct H as [t [_ ->]]. reflexivity.
Qed.

Lemma script_loop_keeps (sql_in : list string) :
  forall stmt (s : Manager.mstate conn data),
    let s' := snd (Manager.script_loop conn_execute sql_in stmt s) in
    Manager._dbpath (Manager.this s') = Manager._dbpath (Manager.this s)
    /\ (Manager.is_connected (Manager.this s) = true ->
        Manager.is_connected (Manager.this s') = true).
Proof.
  induction sql_in as [|ln rest IH]; intros stmt s; simpl; [now split|].
  destruct (String.prefix "--" ln
            || String.eqb (Manager.strip ln) EmptyString); [apply IH|].
  destruct (Manager.endswith (Manager.strip ln) ";"); [|apply IH].
  destruct (Manager._connection (Manager.this s)) as [c|] eqn:Hc;
    [|now split].
  destruct (conn_execute _ c) as [[] c'].
  - destruct (IH [] (Manager.with_connection s (Some c'))) as [H1 H2].
    split; [exact H1 | intros _; now apply H2].
  - now split.
Qed.

Lemma check_tables_returns (tbls : list string) (c : conn)
      (s s' : Manager.mstate conn data) :
  Manager.check_tables tables_named tbls c s = (Manager.Returned tt, s') ->
  s' = s.
Proof.
  induction tbls as [|tbl tbls IH]; simpl.
  - now intros [= <-].
  - destruct (Z.eqb (tables_named tbl c) 1); [exact IH | discriminate].
Qed.

Lemma init_returns (dbpath : string) (logged : list (Manager.event data))
      (s : Manager.mstate conn data) :
  Manager.__init__ make_connection conn_execute conn_rollback tables_named
    tables_sql dbpath logged = (Manager.Returned tt, s) ->
  Manager._dbpath (Manager.this s) = dbpath
  /\ Manager.is_connected (Manager.this s) = true.
Proof.
  unfold Manager.__init__, Manager._initialize_tables,
    Manager.execute_sql_script.
  set (s0 := Manager.mkState _ logged).
  destruct (script_loop_keeps tables_sql [] s0) as [Hp Hcn].
  specialize (Hcn eq_refl).
  destruct (Manager.script_loop conn_execute tables_sql [] s0) as [r s1].
  simpl in Hp, Hcn. unfold Manager.is_connected in Hcn.
  destruct (Manager._connection (Manager.this s1)) as [c1|] eqn:Hc1;
    [|discriminate].
  destruct r as [[]|f].
  - rewrite Hc1. intros H. apply check_tables_returns in H. subst s.
    split; [exact Hp|]. unfold Manager.is_connected. now rewrite Hc1.
  - destruct f; try discriminate.
    cbn [Manager.this Manager.with_connection Manager._connection].
    intros H. apply check_tables_returns in H. subst s. simpl.
    split; [exact Hp | reflexivity].
Qed.

(** X22. [DatabaseManager(dbpath)], through [Singleton.__call__]: when the
    call returns, an instance is registered and connected; with an instance
    already registered the call never raises, logs nothing and keeps the
    path of the instance whatever [dbpath] is, returning it untouched when
    it is connected and reopened on its own path when it is not; when the
    call raises, no instance was registered and none is. *)
Theorem singleton_call (dbpath : string)
        (_instances : option (Manager.manager conn))
        (logged : list (Manager.event data)) :
  let '(r, instances', logged') :=
    Manager.Singleton_call make_connection conn_execute conn_rollback
      tables_named tables_sql dbpath _instances logged in
  match r with
  | Manager.Returned _ =>
      exists obj,
        instances' = Some obj
        /\ Manager.is_connected obj = true
        /\ match _instances with
           | None => Manager._dbpath obj = dbpath
           | Some old =>
               Manager._dbpath obj = Manager._dbpath old
               /\ logged' = logged
               /\ obj = (if Manager.is_connected old then old
                         else Manager.mkManager (Manager._dbpath old)
                                (Some (make_connection
                                         (Manager._dbpath old))))
           end
  | Manager.Raised _ => _instances = None /\ instances' = None
  end.
Proof.
  unfold Manager.Singleton_call. destruct _instances as [old|].
  - exists (if Manager.is_connected old then old
            else Manager._connect make_connection old).
    split; [reflexivity|].
    destruct (Manager.is_connected old) eqn:E; simpl; auto.
  - destruct (Manager.__init__ _ _ _ _ _ _ _) as [[[]|f] s] eqn:Hi.
    + destruct (init_returns _ _ _ Hi) as [Hp Hc]. rewrite Hc.
      exists (Manager.this s). auto.
    + now split.
Qed.

(** X23. The errors of the database do not leave an open manager:
    [insert_data] returns normally whether the row is accepted or rejected,
    logging a rejection twice, and [execute_query] returns the rows or, for
    a query the database rejects, [None] after a warning; on a closed
    manager [insert_data] raises [DatabaseManagerError] and [execute_query]
    [AttributeError], both leaving it as it was. *)
Theorem database_errors_are_logged (table query : string) (d : data)
        (s : Manager.mstate conn data) :
  match Manager._connection (Manager.this s) with
  | Some c =>
      Manager.insert_data cursor_insert table d s
      = (Manager.Returned tt,
         Manager.mkState
           (Manager.mkManager (Manager._dbpath (Manager.this s))
              (Some (snd (cursor_insert table d c))))
           (Manager.journal s
            ++ if fst (cursor_insert table d c) then []
               else [ Manager.InsertFailed data table;
                      Manager.RejectedData d ]))
      /\ Manager.execute_query cursor_query query s
         = (Manager.Returned (fst (cursor_query query c)),
            Manager.mkState
              (Manager.mkManager (Manager._dbpath (Manager.this s))
                 (Some (snd (cursor_query query c))))
              (Manager.journal s
               ++ match fst (cursor_query query c) with
                  | Some _ => []
                  | None => [Manager.QueryFailed data query]
                  end))
  | None =>
      Manager.insert_data cursor_insert table d s
      = (Manager.Raised Manager.DatabaseManagerError, s)
      /\ Manager.execute_query cursor_query query s
         = (Manager.Raised (Manager.Builtin AttributeError), s)
  end.
Proof.
  unfold Manager.insert_data, Manager.execute_query.
  destruct (Manager._connection (Manager.this s)) as [c|]; [|now split].
  split.
  - destruct (cursor_insert table d c) as [[] c']; simpl.
    + unfold Manager.with_connection. now rewrite app_nil_r.
    + unfold Manager.log, Manager.with_connection. simpl.
      now rewrite <- app_assoc.
  - destruct (cursor_query query c) as [[rows|] c']; simpl.
    + unfold Manager.with_connection. now rewrite app_nil_r.
    + reflexivity.
Qed.

(** X25. The two descriptions of [get_limits] agree: on an open manager
    whose database answers the four limit queries as the store [db] does,
    with the one cell of the maximum and without changing the connection,
    [get_limits] returns normally the four limits computed over [db],
    leaving the manager and the log as they were. *)
Theorem get_limits_over_the_store (db : database) (c : conn)
        (s : Manager.mstate conn data) :
  Manager._connection (Manager.this s) = Some c ->
  cursor_query "SELECT MAX(execution_id) FROM mal_execution" c
  = (Some (execute_query_max absent "execution_id" "mal_execution" db), c) ->
  cursor_query "SELECT MAX(event_id) FROM profiler_event" c
  = (Some (execute_query_max absent "event_id" "profiler_event" db), c) ->
  cursor_query "SELECT MAX(variable_id) FROM mal_variable" c
  = (Some (execute_query_max absent "variable_id" "mal_variable" db), c) ->
  cursor_query "SELECT MAX(heartbeat_id) FROM heartbeat" c
  = (Some (execute_query_max absent "heartbeat_id" "heartbeat" db), c) ->
  Manager.get_limits cursor_query s
  = (Manager.Returned (get_limits absent db), s).
Proof.
  intros Hc H1 H2 H3 H4.
  unfold Manager.get_limits, Manager.limit_queries. simpl.
  unfold Manager.execute_query at 1. rewrite Hc, H1.
  unfold Manager.execute_query at 1. simpl. rewrite H2.
  unfold Manager.execute_query at 1. simpl. rewrite H3.
  unfold Manager.execute_query at 1. simpl. rewrite H4. simpl.
  unfold Manager.with_connection. simpl. rewrite <- Hc.
  now destruct s as [[]].
Qed.

Lemma limits_of_failure
      (pre post : list (option (list (list value)))) :
  forallb Manager.has_cell pre = true ->
  Manager.map_answer Manager.limit_of (pre ++ None :: post)
  = Manager.Raised (Manager.Builtin TypeError).
Proof.
  induction pre as [|x pre IH]; simpl; [reflexivity|].
  intros H. apply andb_prop in H. destruct H as [Hx Hpre].
  destruct x as [[|[|v r] rs]|]; try discriminate. simpl.
  now rewrite (IH Hpre).
Qed.

(** X24. A limit query the database rejects is not counted as 0: when the
    four queries have run and the first of them without a first cell has
    failed, [get_limits] raises [TypeError], the failure having been logged
    by [execute_query]. *)
Theorem get_limits_raises_on_failed_query
        (pre post : list (option (list (list value))))
        (s s1 : Manager.mstate conn data) :
  Manager.run_queries cursor_query Manager.limit_queries s
  = (Manager.Returned (pre ++ None :: post), s1) ->
  forallb Manager.has_cell pre = true ->
  Manager.get_limits cursor_query s
  = (Manager.Raised (Manager.Builtin TypeError), s1).
Proof.
  intros Hr Hpre. unfold Manager.get_limits. rewrite Hr.
  now rewrite (limits_of_failure pre post Hpre).
Qed.

End Lifecycle.

(** ** The further statements at concrete inputs *)

Lemma unhashable_state_leaves_execution_row_witness :
  let json_object := [("source", JString "trace"); ("state", JArray [])] in
  Py.hashable (Py.get json_object "state") = false
  /\ _parse_trace null_columns json_object fresh_world
     = (Raise TypeError,
        mkWorld (trace_ids_allocated fresh_parser)
          (catalog ++
           [("mal_execution",
             Dict [ ("execution_id", JInt (0 + 1));
                    ("server_session", JNull); ("tag", JNull) ])])
          []).
Proof.
  intros json_object. split; [reflexivity|].
  exact (unhashable_state_leaves_execution_row null_columns json_object
           fresh_world eq_refl).
Defined.

Lemma unknown_kind_is_dropped_witness :
  more_loads unknown_kind_text = Some (JObject [("source", JString "query")])
  /\ parse_object null_columns more_loads unknown_kind_text fresh_world
     = (Ok tt,
        mkWorld fresh_parser catalog
          [mkLog ERROR "Unkown JSON object kind: %s" [JString "query"]]).
Proof.
  split; [reflexivity|].
  refine (unknown_kind_is_dropped null_columns more_loads unknown_kind_text
            [("source", JString "query")] (JString "query") fresh_world
            eq_refl eq_refl eq_refl _ _ _); discriminate.
Defined.

Lemma malformed_text_is_dropped_witness :
  sample_loads "{" = None
  /\ parse_object null_columns sample_loads "{" fresh_world
     = (Ok tt,
        mkWorld fresh_parser catalog
          [ mkLog WARNING "W001: Cannot parse object" [];
            mkLog WARNING "{" [];
            mkLog WARNING "Decoder reports %s" [JString "{"] ]).
Proof.
  split; [reflexivity|].
  exact (malformed_text_is_dropped null_columns sample_loads "{" fresh_world
           eq_refl).
Defined.

Lemma known_name_reuses_stored_id_witness :
  let var := JObject [("name", JString "x"); ("index", JInt 3)] in
  known null_columns catalog (JString "x") = false
  /\ process_var null_columns "ret" var registered_world
     = (Ok tt,
        mkWorld fresh_parser
          (store registered_world ++
           [("return_variable_list",
             Dict [ ("variable_list_index", JInt 3);
                    ("event_id", JInt 0);
                    ("variable_id", JInt 7) ])])
          []).
Proof.
  intros var. split; [reflexivity|].
  exact (known_name_reuses_stored_id null_columns "ret"
           "return_variable_list" var "x"
           [("variable_id", JInt 7); ("name", JString "x")] (JInt 7)
           catalog [] registered_world
           eq_refl eq_refl eq_refl eq_refl eq_refl eq_refl).
Defined.

Lemma trace_without_variables_witness :
  let json_object :=
    [ ("source", JString "trace"); ("state", JString "pause");
      ("prereq", JArray [JInt 4]) ] in
  Py.get_default json_object "ret" (JArray []) = JArray []
  /\ fst (_parse_trace null_columns json_object fresh_world) = Ok tt
  /\ map fst (store (snd (_parse_trace null_columns json_object fresh_world)))
     = [ "mal_type"; "mal_type"; "mal_execution"; "profiler_event";
         "prerequisite_events" ].
Proof.
  intros json_object. split; [reflexivity|].
  rewrite (trace_without_variables null_columns json_object [JInt 4]
             fresh_world eq_refl eq_refl eq_refl eq_refl).
  split; reflexivity.
Defined.

Lemma heartbeat_without_cpuload_witness :
  let json_object := [("source", JString "heartbeat"); ("clk", JInt 1)] in
  more_loads heartbeat_only_text = Some (JObject json_object)
  /\ Py.lookup "cpuload" json_object = None
  /\ parse_object null_columns more_loads heartbeat_only_text fresh_world
     = (Ok tt,
        mkWorld (heartbeat_id_allocated fresh_parser)
          (catalog ++
           [("heartbeat",
             TupleSet (map (fun k => (k, Py.get json_object k)) data_keys))])
          [mkLog ERROR "Unkown JSON object kind: %s" [JString "heartbeat"]]).
Proof.
  intros json_object. split; [reflexivity|]. split; [reflexivity|].
  refine (heartbeat_without_cpuload null_columns more_loads
            heartbeat_only_text json_object fresh_world
            eq_refl eq_refl _ eq_refl).
  intros k Hk. simpl in Hk.
  repeat (destruct Hk as [<-|Hk]; [reflexivity|]). destruct Hk.
Defined.

Lemma execution_limit_follows_trace_witness :
  0 <= _execution_id (self resumed_world)
  /\ exists a,
       execution_limit null_columns (store resumed_world) = JInt a
       /\ execution_limit null_columns
            (store (snd (_parse_trace null_columns (trace_record [])
                           resumed_world)))
          = JInt (Z.max a (_execution_id (self resumed_world) + 1)).
Proof.
  split; [discriminate|].
  exact (execution_limit_follows_trace null_columns (trace_record [])
           resumed_world ltac:(discriminate)).
Defined.

Lemma script_drops_unterminated_tail_witness :
  Manager.statements Toy.script []
  = [ "CREATE TABLE t ( id int );"; "DROP TABLE u;";
      "CREATE TABLE v (id int);" ]
  /\ Manager.execute_sql_script Toy.conn_execute
       ([("CREATE TABLE t (id int);" ++ Manager.newline)%string]
        ++ ["SELECT 1"; "-- the end"])
       (Toy.state Toy.opened)
     = Manager.execute_sql_script Toy.conn_execute
         [("CREATE TABLE t (id int);" ++ Manager.newline)%string]
         (Toy.state Toy.opened).
Proof.
  split; [reflexivity|].
  apply (script_drops_unterminated_tail Toy.conn Toy.conn_execute dict).
  constructor; [right; reflexivity|].
  constructor; [left; reflexivity | constructor].
Defined.

Lemma script_stops_at_first_failure_witness :
  Manager.statements Toy.script []
  = ["CREATE TABLE t ( id int );"] ++ "DROP TABLE u;"
    :: ["CREATE TABLE v (id int);"]
  /\ Toy.conn_execute "DROP TABLE u;" ["CREATE TABLE t ( id int );"]
     = (false, ["CREATE TABLE t ( id int );"; "DROP TABLE u;"])
  /\ Manager.execute_sql_script Toy.conn_execute Toy.script
       (Toy.state Toy.opened)
     = (Manager.Raised Manager.MonetDBLiteError,
        Manager.mkState
          (Manager.mkManager "db"
             (Some ["CREATE TABLE t ( id int );"; "DROP TABLE u;"]))
          []).
Proof.
  split; [reflexivity|]. split; [reflexivity|].
  exact (script_stops_at_first_failure Toy.conn Toy.conn_execute dict
           Toy.script
           ["CREATE TABLE t ( id int );"] ["CREATE TABLE v (id int);"]
           "DROP TABLE u;" (Toy.state Toy.opened)
           (Manager.mkState
              (Manager.mkManager "db" (Some ["CREATE TABLE t ( id int );"]))
              [])
           ["CREATE TABLE t ( id int );"]
           ["CREATE TABLE t ( id int );"; "DROP TABLE u;"]
           eq_refl eq_refl eq_refl eq_refl).
Defined.

Lemma csv_of_batches_concatenates_witness :
  let r1 := [[("name", JString "x"); ("alias", JNull)]] in
  let r2 := [[("name", JString "y"); ("alias", JString "z")]] in
  exists t1 t2,
    Manager._prepare_csv Toy.str "tmp" r1 = Manager.Returned ("tmp", t1)
    /\ Manager._prepare_csv Toy.str "tmp" r2 = Manager.Returned ("tmp", t2)
    /\ Manager._prepare_csv Toy.str "tmp" (r1 ++ r2)
       = Manager.Returned ("tmp", (t1 ++ t2)%string)
    /\ Manager._prepare_csv Toy.str "tmp" []
       = Manager.Raised Manager.IndexError.
Proof.
  intros r1 r2.
  apply (csv_of_batches_concatenates Toy.str "tmp" r1 r2); discriminate.
Defined.

Lemma csv_has_one_line_per_row_witness :
  let rows := [ [("name", JString "x"); ("alias", JNull)];
                [("name", JString "y"); ("alias", JString "z")] ] in
  Manager._prepare_csv Toy.str "tmp" rows
  = Manager.Returned
      ("tmp",
       ("x|None" ++ Manager.newline ++ "y|z" ++ Manager.newline)%string)
  /\ exists text,
       Manager._prepare_csv Toy.str "tmp" rows
       = Manager.Returned ("tmp", text)
       /\ Manager.occurrences "010" text = length rows.
Proof.
  intros rows. split; [reflexivity|].
  apply (csv_has_one_line_per_row Toy.str "tmp" rows); [discriminate|].
  repeat constructor.
Defined.

Lemma csv_does_not_escape_the_bar_witness :
  Toy.str (JString "a|b")
  = (Toy.str (JString "a") ++ "|" ++ Toy.str (JString "b"))%string
  /\ Manager._prepare_csv Toy.str "tmp" [[("name", JString "a|b")]]
     = Manager._prepare_csv Toy.str "tmp"
         [[("name", JString "a"); ("alias", JString "b")]].
Proof.
  split; [reflexivity|].
  exact (csv_does_not_escape_the_bar Toy.str "tmp" "name" "name" "alias"
           (JString "a|b") (JString "a") (JString "b") eq_refl).
Defined.

(** The script of the example is rejected at its second statement, and the
    manager initializes all the same: the eight tables are there. *)
Lemma initialization_depends_on_tables_witness :
  fst (Manager.execute_sql_script (data := dict) Toy.conn_execute Toy.script
         (Toy.state Toy.opened))
  = Manager.Raised Manager.MonetDBLiteError
  /\ fst (Manager._initialize_tables Toy.conn_execute Toy.conn_rollback
            Toy.tables_named Toy.script (Toy.state Toy.opened))
     = Manager.Returned tt.
Proof.
  split; [reflexivity|].
  exact (initialization_depends_on_tables Toy.conn Toy.conn_execute
           Toy.conn_rollback Toy.tables_named dict Toy.script
           (Toy.state Toy.opened)
           (snd (Manager.execute_sql_script Toy.conn_execute Toy.script
                   (Toy.state Toy.opened)))
           (Manager.Raised Manager.MonetDBLiteError)
           ["CREATE TABLE t ( id int );"; "DROP TABLE u;"]
           eq_refl eq_refl (or_intror eq_refl)).
Defined.

Lemma get_limits_raises_on_failed_query_witness :
  Manager.run_queries Toy.cursor_query_without_heartbeat
    Manager.limit_queries (Toy.state Toy.opened)
  = (Manager.Returned
       ([Some [[JInt 5]]; Some [[JInt 5]]; Some [[JInt 5]]] ++ None :: []),
     Manager.mkState Toy.opened
       [Manager.QueryFailed dict "SELECT MAX(heartbeat_id) FROM heartbeat"])
  /\ fst (Manager.get_limits Toy.cursor_query_without_heartbeat
            (Toy.state Toy.opened))
     = Manager.Raised (Manager.Builtin TypeError).
Proof.
  split; [reflexivity|].
  rewrite (get_limits_raises_on_failed_query Toy.conn
             Toy.cursor_query_without_heartbeat dict
             [Some [[JInt 5]]; Some [[JInt 5]]; Some [[JInt 5]]] []
             (Toy.state Toy.opened)
             (Manager.mkState Toy.opened
                [Manager.QueryFailed dict
                   "SELECT MAX(heartbeat_id) FROM heartbeat"])
             eq_refl eq_refl).
  reflexivity.
Defined.

Lemma get_limits_over_the_store_witness :
  let s := Manager.mkState (data := dict)
             (Manager.mkManager "db" (Some resumed_db)) [] in
  Manager.get_limits (Toy.store_query null_columns) s
  = (Manager.Returned [JInt 3; JInt 0; JInt 0; JInt 0], s).
Proof.
  intros s.
  exact (get_limits_over_the_store null_columns database
           (Toy.store_query null_columns) dict resumed_db resumed_db s
           eq_refl eq_refl eq_refl eq_refl eq_refl).
Defined.

(** ** The ids of a session *)




Section Allocation.

Variable absent : string -> string -> database -> dict -> value.
Variable json_loads : string -> option value.







End Allocation.


(** C7 as stated fails for a state that is a list: the text
    [{"source": "trace", "state": []}] makes the lookup of line 36 raise a
    [TypeError] that [parse_object] lets through, after the Execution row
    and without any Event row. *)
Lemma C7_list_state_counterexample :
  let r := parse_object null_columns list_state_loads list_state_text
             fresh_world in
  list_state_loads list_state_text
  = Some (JObject [("source", JString "trace"); ("state", JArray [])])
  /\ states_get (JArray []) = Raise TypeError
  /\ fst r = Raise TypeError
  /\ rows "profiler_event" (store (snd r)) = []
  /\ map fst (store (snd r)) = ["mal_type"; "mal_type"; "mal_execution"].
Proof. repeat split; vm_compute; reflexivity. Qed.
